(** * parse_compareQUIC.py : a shallow embedding in Rocq

    The script reads qperf and iperf3 result files, buckets every
    throughput sample by interface and by time of day, and reports the
    mean and the standard deviation of every bucket as a table and as a
    CSV file.

    Conventions of the model:
    - Python [str] values are modelled as [string] holding their UTF-8
      bytes (the only non-ASCII character the script writes is U+00B1),
      decoded to code points ([decode]) where the script matches
      characters against a pattern;
    - Python numbers are [Z] (int) and [Q] (float, as exact rationals;
      every concrete value used below is exactly representable);
    - an exception is a value of [exc], and code that may raise lives in
      the error monad [PyM];
    - the file system is passed explicitly: [fs_read] gives the text of a
      file ([None] when [open]/[read] fails) and [fs_listdir] the entries
      of a directory. *)

From Stdlib Require Import String Ascii List ZArith QArith Qround Qabs Lia Lqa Bool.
Import ListNotations.

Open Scope bool_scope.
Set Warnings "-register-all".

(* ------------------------------------------------------------------ *)
(** ** Python values, exceptions and the error monad *)

Inductive exc :=
| KeyError (k : string)
| TypeError
| ValueError
| IndexError
| OSError.

(** A value of the result of [json.load] (and of the Python objects the
    script builds from it). *)
Inductive pyval :=
| PNone
| PBool (b : bool)
| PInt (z : Z)
| PFloat (q : Q)
| PStr (s : string)
| PList (l : list pyval)
| PDict (kvs : list (string * pyval)).

Definition PyM (A : Type) : Type := (A + exc)%type.

Definition ret {A} (a : A) : PyM A := inl a.
Definition raise {A} (e : exc) : PyM A := inr e.
Definition bind {A B} (m : PyM A) (k : A -> PyM B) : PyM B :=
  match m with
  | inl a => k a
  | inr e => inr e
  end.

Notation "x <- m ;; k" := (bind m (fun x => k))
  (at level 61, m at next level, right associativity).

(** [for x in xs: ys.append(f(x))], stopping at the first exception. *)
Fixpoint mapM {A B} (f : A -> PyM B) (xs : list A) : PyM (list B) :=
  match xs with
  | [] => ret []
  | x :: r => y <- f x ;; ys <- mapM f r ;; ret (y :: ys)
  end.

(** Dictionary lookup: [json.load] keeps the last of duplicated keys. *)
Fixpoint dict_lookup (k : string) (kvs : list (string * pyval)) : option pyval :=
  match kvs with
  | [] => None
  | (k', v) :: r =>
      match dict_lookup k r with
      | Some x => Some x
      | None => if String.eqb k k' then Some v else None
      end
  end.

(** [v[k]] for a string key [k]. *)
Definition getitem (v : pyval) (k : string) : PyM pyval :=
  match v with
  | PDict kvs =>
      match dict_lookup k kvs with
      | Some x => ret x
      | None => raise (KeyError k)
      end
  | _ => raise TypeError
  end.

Fixpoint dict_keys (kvs : list (string * pyval)) (seen : list string) : list string :=
  match kvs with
  | [] => []
  | (k, _) :: r =>
      if existsb (String.eqb k) seen then dict_keys r seen
      else k :: dict_keys r (k :: seen)
  end.

Fixpoint chars (s : string) : list string :=
  match s with
  | EmptyString => []
  | String c r => String c EmptyString :: chars r
  end.

(** [for x in v]: lists give their items, dicts their keys, strings
    their characters (here one element per UTF-8 byte: the script looks
    up ['sum'] in every element, which raises [TypeError] on any string,
    so only whether the string is empty matters); any other JSON value
    is not iterable. *)
Definition py_iter (v : pyval) : PyM (list pyval) :=
  match v with
  | PList l => ret l
  | PDict kvs => ret (map PStr (dict_keys kvs []))
  | PStr s => ret (map PStr (chars s))
  | _ => raise TypeError
  end.

Inductive pynum := NInt (z : Z) | NFloat (q : Q).

Definition num_Q (n : pynum) : Q :=
  match n with
  | NInt z => inject_Z z
  | NFloat q => q
  end.

(** [bool] is a subclass of [int] in Python. *)
Definition as_num (v : pyval) : option pynum :=
  match v with
  | PBool b => Some (NInt (if b then 1 else 0)%Z)
  | PInt z => Some (NInt z)
  | PFloat q => Some (NFloat q)
  | _ => None
  end.

(** [n + v] for an int [n]. *)
Definition int_add (n : Z) (v : pyval) : PyM pynum :=
  match as_num v with
  | Some (NInt z) => ret (NInt (n + z)%Z)
  | Some (NFloat q) => ret (NFloat (inject_Z n + q))
  | None => raise TypeError
  end.

(** [v / 1e6]. *)
Definition div_1e6 (v : pyval) : PyM Q :=
  match as_num v with
  | Some n => ret (num_Q n / inject_Z 1000000)
  | None => raise TypeError
  end.

(* ------------------------------------------------------------------ *)
(** ** String helpers (Python [str] methods) *)

Open Scope string_scope.

Definition char_nl : ascii := ascii_of_nat 10.
Definition char_cr : ascii := ascii_of_nat 13.

(** [s.split(c)] *)
Fixpoint split_on (c : ascii) (s : string) : list string :=
  match s with
  | EmptyString => [EmptyString]
  | String x r =>
      let parts := split_on c r in
      if Ascii.eqb x c then EmptyString :: parts
      else match parts with
           | p :: ps => String x p :: ps
           | [] => [String x EmptyString]
           end
  end.

(** [s.replace(pat, "")] for a non-empty [pat]: every non-overlapping
    occurrence, left to right, is removed. *)
Fixpoint remove_all_aux (fuel : nat) (pat s : string) : string :=
  match fuel with
  | O => s
  | S f =>
      match s with
      | EmptyString => EmptyString
      | String c r =>
          if String.prefix pat s
          then remove_all_aux f pat (substring (String.length pat) (String.length s) s)
          else String c (remove_all_aux f pat r)
      end
  end.

Definition remove_all (pat s : string) : string :=
  remove_all_aux (String.length s) pat s.

(** [needle in hay] *)
Fixpoint contains (needle hay : string) : bool :=
  String.prefix needle hay ||
  match hay with
  | EmptyString => false
  | String _ r => contains needle r
  end.

(** [os.path.basename]: what follows the last ["/"]. *)
Definition basename (p : string) : string :=
  last (split_on "/" p) EmptyString.

(** [os.path.join(a, b)] *)
Definition path_join (a b : string) : string :=
  if String.prefix "/" b then b
  else if String.eqb a "" then b
  else if String.eqb (substring (String.length a - 1) 1 a) "/" then a ++ b
  else a ++ "/" ++ b.

(* ------------------------------------------------------------------ *)
(** ** Text: UTF-8 and decimal digits

    A Python [str] is a sequence of code points.  The model keeps the
    UTF-8 bytes ([string]) and decodes them where the script looks at
    characters one by one.  [utf8_decode] is Python's UTF-8 decoder with
    the [surrogateescape] error handler (the one [os.listdir] uses for
    file names): a byte that does not start a well-formed sequence
    becomes the code point [0xDC00 + byte].  A text file opened with
    [open(filepath, 'r')] (UTF-8 locale) is decoded strictly: a file
    that is not well-formed UTF-8 raises [UnicodeDecodeError], a
    [ValueError]. *)

Definition byte (c : ascii) : Z := Z.of_nat (nat_of_ascii c).

Definition is_cont (n : Z) : bool := ((128 <=? n) && (n <=? 191))%Z.

Definition esc (n : Z) : Z := (56320 + n)%Z.

Fixpoint utf8_decode (l : list ascii) : list Z :=
  match l with
  | [] => []
  | b0 :: r =>
      let n := byte b0 in
      if n <? 128 then n :: utf8_decode r
      else if (194 <=? n) && (n <=? 223) then
        match r with
        | b1 :: r1 =>
            if is_cont (byte b1)
            then (64 * (n - 192) + (byte b1 - 128)) :: utf8_decode r1
            else esc n :: utf8_decode r
        | [] => [esc n]
        end
      else if (224 <=? n) && (n <=? 239) then
        match r with
        | b1 :: b2 :: r2 =>
            if is_cont (byte b1) && is_cont (byte b2) &&
               negb ((n =? 224) && (byte b1 <? 160)) &&
               negb ((n =? 237) && (160 <=? byte b1))
            then (4096 * (n - 224) + 64 * (byte b1 - 128) + (byte b2 - 128))
                 :: utf8_decode r2
            else esc n :: utf8_decode r
        | _ => esc n :: utf8_decode r
        end
      else if (240 <=? n) && (n <=? 244) then
        match r with
        | b1 :: b2 :: b3 :: r3 =>
            if is_cont (byte b1) && is_cont (byte b2) && is_cont (byte b3) &&
               negb ((n =? 240) && (byte b1 <? 144)) &&
               negb ((n =? 244) && (144 <=? byte b1))
            then (262144 * (n - 240) + 4096 * (byte b1 - 128) +
                  64 * (byte b2 - 128) + (byte b3 - 128)) :: utf8_decode r3
            else esc n :: utf8_decode r
        | _ => esc n :: utf8_decode r
        end
      else esc n :: utf8_decode r
  end%Z.

Definition decode (s : string) : list Z := utf8_decode (list_ascii_of_string s).

(** Well-formed UTF-8: no byte had to be escaped (a well-formed text
    never decodes to a surrogate). *)
Definition utf8_valid (s : string) : bool :=
  forallb (fun c => negb ((56448 <=? c) && (c <=? 56575))%Z) (decode s).

(** The code points of an ASCII literal of the script. *)
Definition cps (s : string) : list Z := map byte (list_ascii_of_string s).

(** The decimal digits of Unicode 14 (general category Nd, Python
    3.11): 66 blocks of ten consecutive code points, each from 0 to 9.
    They are what [\d] matches in a [str] pattern and what [int()] and
    [float()] accept as digits. *)
Definition nd_starts : list Z :=
  [ 48; 1632; 1776; 1984; 2406; 2534; 2662; 2790; 2918; 3046; 3174; 3302;
    3430; 3558; 3664; 3792; 3872; 4160; 4240; 6112; 6160; 6470; 6608; 6784;
    6800; 6992; 7088; 7232; 7248; 42528; 43216; 43264; 43472; 43504; 43600;
    44016; 65296; 66720; 68912; 69734; 69872; 69942; 70096; 70384; 70736;
    70864; 71248; 71360; 71472; 71904; 72016; 72784; 73040; 73120; 92768;
    92864; 93008; 120782; 120792; 120802; 120812; 120822; 123200; 123632;
    125264; 130032 ]%Z.

Definition in_block (c s : Z) : bool := ((s <=? c) && (c <? s + 10))%Z.

(** [\d] *)
Definition is_digit (c : Z) : bool := existsb (in_block c) nd_starts.

(** The value of a decimal digit. *)
Definition dval (c : Z) : Z :=
  match find (in_block c) nd_starts with
  | Some s => c - s
  | None => 0
  end%Z.

(* ------------------------------------------------------------------ *)
(** ** [datetime.strptime(s, '%Y%m%d_%H%M%S')]

    CPython's [_strptime] turns the format into the regular expression
    [(\d\d\d\d)(1[0-2]|0[1-9]|[1-9])(3[0-1]|[1-2]\d|0[1-9]|[1-9]| [1-9])_
    (2[0-3]|[0-1]\d|\d)([0-5]\d|\d)(6[0-1]|[0-5]\d|\d)] (compiled with
    [re.IGNORECASE], which changes nothing here), takes the first match
    of [re.match] on the code points of the string (alternatives tried
    left to right, with backtracking) and raises [ValueError] when there
    is none or when it does not reach the end of the string; the groups
    go through [int()]; [datetime] then rejects year 0, a day beyond the
    month and seconds 60 and 61.  [\d] is any Unicode decimal digit, a
    bracketed class such as [[0-5]] only ASCII.  A field matcher lists
    its matches in the order the regular-expression engine tries them. *)

Record datetime := mkdatetime {
  year : Z; month : Z; day : Z; hour : Z; minute : Z; second : Z }.

(** The class [[lo-hi]] of ASCII characters. *)
Definition in_range (lo hi : ascii) (c : Z) : bool := ((byte lo <=? c) && (c <=? byte hi))%Z.

Definition field := list Z -> list (Z * list Z).

(** Two characters of the classes [p1] and [p2]. *)
Definition two (p1 p2 : Z -> bool) : field := fun s =>
  match s with
  | c1 :: c2 :: r =>
      if p1 c1 && p2 c2 then [(10 * dval c1 + dval c2, r)%Z] else []
  | _ => []
  end.

(** One character of the class [p]. *)
Definition one (p : Z -> bool) : field := fun s =>
  match s with
  | c :: r => if p c then [(dval c, r)] else []
  | [] => []
  end.

(** [\d\d\d\d] *)
Definition f_Y : field := fun s =>
  match s with
  | c1 :: c2 :: c3 :: c4 :: r =>
      if is_digit c1 && is_digit c2 && is_digit c3 && is_digit c4
      then [(1000 * dval c1 + 100 * dval c2 + 10 * dval c3 + dval c4, r)%Z]
      else []
  | _ => []
  end.

(** [1[0-2]|0[1-9]|[1-9]] *)
Definition f_m : field := fun s =>
  (two (in_range "1" "1") (in_range "0" "2") s ++
   two (in_range "0" "0") (in_range "1" "9") s ++ one (in_range "1" "9") s)%list.

(** [3[0-1]|[1-2]\d|0[1-9]|[1-9]| [1-9]] *)
Definition f_d : field := fun s =>
  (two (in_range "3" "3") (in_range "0" "1") s ++
   two (in_range "1" "2") is_digit s ++
   two (in_range "0" "0") (in_range "1" "9") s ++
   one (in_range "1" "9") s ++
   match s with
   | c :: r => if (c =? 32)%Z then one (in_range "1" "9") r else []
   | [] => []
   end)%list.

(** [2[0-3]|[0-1]\d|\d] *)
Definition f_H : field := fun s =>
  (two (in_range "2" "2") (in_range "0" "3") s ++
   two (in_range "0" "1") is_digit s ++ one is_digit s)%list.

(** [[0-5]\d|\d] *)
Definition f_M : field := fun s =>
  (two (in_range "0" "5") is_digit s ++ one is_digit s)%list.

(** [6[0-1]|[0-5]\d|\d] *)
Definition f_S : field := fun s =>
  (two (in_range "6" "6") (in_range "0" "1") s ++
   two (in_range "0" "5") is_digit s ++ one is_digit s)%list.

Definition lit (c : Z) (s : list Z) : list (list Z) :=
  match s with
  | x :: r => if (x =? c)%Z then [r] else []
  | [] => []
  end.

Definition ymd_hms_matches (s : list Z) : list (datetime * list Z) :=
  flat_map (fun '(y, r1) =>
  flat_map (fun '(mo, r2) =>
  flat_map (fun '(d, r3) =>
  flat_map (fun r4 =>
  flat_map (fun '(h, r5) =>
  flat_map (fun '(mi, r6) =>
  map (fun '(se, r7) => (mkdatetime y mo d h mi se, r7))
    (f_S r6)) (f_M r5)) (f_H r4)) (lit 95%Z r3)) (f_d r2)) (f_m r1)) (f_Y s).

Definition is_leap (y : Z) : bool :=
  (Z.eqb (y mod 4) 0 && negb (Z.eqb (y mod 100) 0)) || Z.eqb (y mod 400) 0.

Definition days_in_month (y m : Z) : Z :=
  if Z.eqb m 2 then (if is_leap y then 29 else 28)
  else if existsb (Z.eqb m) [4; 6; 9; 11]%Z then 30 else 31.

Definition valid_datetime (t : datetime) : bool :=
  (1 <=? year t)%Z && (day t <=? days_in_month (year t) (month t))%Z &&
  (second t <=? 59)%Z.

Definition strptime_ymd_hms (s : string) : PyM datetime :=
  match ymd_hms_matches (decode s) with
  | (t, []) :: _ => if valid_datetime t then ret t else raise ValueError
  | _ => raise ValueError
  end.

(** [s.split('_')[-2]] and [s.split('_')[-1]] *)
Definition last_two (parts : list string) : PyM (string * string) :=
  match rev parts with
  | p1 :: p2 :: _ => ret (p2, p1)
  | _ => raise IndexError
  end.

(** [datetime.strptime(filename.split('_')[-2] + '_' +
    filename.split('_')[-1].replace(ext, ''), '%Y%m%d_%H%M%S')], the
    filename-timestamp expression both parsers use ([ext] is ['.txt']
    or ['.json']). *)
Definition filename_timestamp (filename ext : string) : PyM datetime :=
  toks <- last_two (split_on "_" filename) ;;
  let '(tok2, tok1) := toks in
  strptime_ymd_hms (tok2 ++ "_" ++ remove_all ext tok1).

(* ------------------------------------------------------------------ *)
(** ** Time sections *)

Definition TIME_SECTIONS : list (string * Z * Z) :=
  [ ("0h-5h59", 0, 5 * 3600 + 59 * 60);
    ("6h-11h59", 6 * 3600, 11 * 3600 + 59 * 60);
    ("12h-17h59", 12 * 3600, 17 * 3600 + 59 * 60);
    ("18h-23h59", 18 * 3600, 23 * 3600 + 59 * 60) ]%Z.

Fixpoint find_section (x : Q) (secs : list (string * Z * Z)) : option string :=
  match secs with
  | [] => None
  | (label, start, end_) :: r =>
      if Qle_bool (inject_Z start) x && Qle_bool x (inject_Z end_)
      then Some label else find_section x r
  end.

(** [get_time_section(seconds_since_midnight)]: linear scan, first
    match wins, [None] when no interval contains the value.  The value
    is an int or a float; Python compares both exactly. *)
Definition get_time_section (seconds_since_midnight : Q) : option string :=
  find_section seconds_since_midnight TIME_SECTIONS.

(* ------------------------------------------------------------------ *)
(** ** [re.search(r'second (\d+): ([\d.]+) mbit/s', line)]

    The search runs on the code points of the line; [\d] is any Unicode
    decimal digit.  Neither [\d+] nor [[\d.]+] can give back characters:
    the next pattern character (':' and ' ') is in neither class, so the
    greedy longest run is the only one that can succeed and the search
    is deterministic at every start position. *)

Definition is_digit_or_dot (c : Z) : bool := is_digit c || (c =? 46)%Z.

(** Longest prefix whose characters satisfy [p], and the rest. *)
Fixpoint span (p : Z -> bool) (s : list Z) : list Z * list Z :=
  match s with
  | c :: r => if p c then let '(a, b) := span p r in (c :: a, b) else ([], s)
  | [] => ([], [])
  end.

Fixpoint strip_prefix (pre s : list Z) : option (list Z) :=
  match pre, s with
  | [], _ => Some s
  | x :: pre', y :: s' => if (x =? y)%Z then strip_prefix pre' s' else None
  | _ :: _, [] => None
  end.

(** A match starting exactly at the head of [s]: the two groups. *)
Definition match_at (s : list Z) : option (list Z * list Z) :=
  match strip_prefix (cps "second ") s with
  | None => None
  | Some s1 =>
      let '(g1, s2) := span is_digit s1 in
      match g1 with
      | [] => None
      | _ =>
          match strip_prefix (cps ": ") s2 with
          | None => None
          | Some s3 =>
              let '(g2, s4) := span is_digit_or_dot s3 in
              match g2 with
              | [] => None
              | _ =>
                  match strip_prefix (cps " mbit/s") s4 with
                  | None => None
                  | Some _ => Some (g1, g2)
                  end
              end
          end
      end
  end.

(** The leftmost match. *)
Fixpoint search (s : list Z) : option (list Z * list Z) :=
  match match_at s with
  | Some m => Some m
  | None => match s with [] => None | _ :: r => search r end
  end.

(** The two groups of the match, as code points. *)
Definition qperf_search (line : string) : option (list Z * list Z) :=
  search (decode line).

Definition digits_value (ds : list Z) : Z :=
  fold_left (fun acc c => 10 * acc + dval c)%Z ds 0%Z.

(** [int(g)] for a non-empty run of digits: CPython 3.11 refuses to
    convert a decimal string of more than 4300 digits (the default of
    [sys.get_int_max_str_digits()]) and raises [ValueError]. *)
Definition py_int_digits (g : list Z) : PyM Z :=
  if (4300 <? length g)%nat then raise ValueError else ret (digits_value g).

(** [float(g)] for a run of digits and dots: a valid literal has at
    most one dot and at least one digit (["1."], [".5"], ["1.5"], ["15"]);
    anything else (["."], ["1.2.3"]) raises [ValueError].  The value is
    the exact decimal the literal denotes: its rounding to a binary64
    float (and the overflow of a huge literal to [inf]) is not modelled,
    and no property below depends on a throughput read by [float()]. *)
Definition py_float_digits_dots (g : list Z) : PyM Q :=
  let '(ip, r) := span is_digit g in
  match r with
  | [] =>
      match ip with
      | [] => raise ValueError
      | _ => ret (inject_Z (digits_value ip))
      end
  | _ :: fp =>
      if forallb is_digit fp && negb (Nat.eqb (length ip + length fp) 0)
      then ret (inject_Z (digits_value ip) +
                inject_Z (digits_value fp) / inject_Z (10 ^ Z.of_nat (length fp)))
      else raise ValueError
  end.

(** [for line in f] on a file opened in text mode: universal newlines
    make ["\n"], ["\r"] and ["\r\n"] line ends.  Splitting at every
    ["\n"] and ["\r"] adds empty segments, which the pattern never
    matches. *)
Definition lines (text : string) : list string :=
  flat_map (split_on char_cr) (split_on char_nl text).

(* ------------------------------------------------------------------ *)
(** ** The parsers *)

(** The read-only file system the script sees. *)
Record fsys := {
  fs_read : string -> option string;
  fs_listdir : string -> option (list string) }.

(** [open(filepath, 'r')]: [OSError] when the file cannot be read. *)
Definition open_read (fs : fsys) (filepath : string) : PyM string :=
  match fs_read fs filepath with
  | Some text => ret text
  | None => raise OSError
  end.

(** Reading a file opened in text mode decodes its bytes (UTF-8
    locale): bytes that are not UTF-8 raise [UnicodeDecodeError], a
    [ValueError]. *)
Definition decode_text (text : string) : PyM string :=
  if utf8_valid text then ret text else raise ValueError.

(** A parser's result: [(start_time, throughputs)]; [start_time] is
    [None] in the failure sentinel [(None, [])]. *)
Definition parse_out := (option datetime * list (pyval * Q))%type.

(** The line printed by the [except] clause: [f"Error parsing {what} file
    {filepath}: {e}"]. *)
Record diag := mkdiag { diag_what : string; diag_path : string; diag_exc : exc }.

Definition sentinel : parse_out := (None, []).

(** [try: body  except Exception as e: print(...); return None, []] *)
Definition catch_all (what filepath : string) (body : PyM parse_out)
  : parse_out * list diag :=
  match body with
  | inl r => (r, [])
  | inr e => (sentinel, [mkdiag what filepath e])
  end.

(** One line of the qperf loop: [None] when the line does not match. *)
Definition qperf_line (line : string) : PyM (option (pyval * Q)) :=
  match qperf_search line with
  | None => ret None
  | Some (g1, g2) =>
      second <- py_int_digits g1 ;;
      throughput <- py_float_digits_dots g2 ;;
      ret (Some (PInt second, throughput))
  end.

Fixpoint qperf_lines (ls : list string) : PyM (list (pyval * Q)) :=
  match ls with
  | [] => ret []
  | l :: r =>
      o <- qperf_line l ;;
      rest <- qperf_lines r ;;
      ret (match o with Some x => x :: rest | None => rest end)
  end.

Definition parse_qperf_body (fs : fsys) (filepath : string) : PyM parse_out :=
  let filename := basename filepath in
  start_time <- filename_timestamp filename ".txt" ;;
  f <- open_read fs filepath ;;
  text <- decode_text f ;;
  throughputs <- qperf_lines (lines text) ;;
  ret (Some start_time, throughputs).

Definition parse_qperf_file (fs : fsys) (filepath : string) : parse_out * list diag :=
  catch_all "qperf" filepath (parse_qperf_body fs filepath).

(** The two library calls of [parse_iperf_file] whose internals the
    script does not depend on are taken as arguments: [json_load] is
    [json.load] on the file's bytes, which it reads as text and parses
    ([None]: [UnicodeDecodeError] or [json.JSONDecodeError], both
    [ValueError]); [strptime_http s] is [datetime.strptime(s, '%a, %d %b
    %Y %H:%M:%S GMT')] for a [str] argument ([None]: [ValueError]). *)
Definition json_loader := string -> option pyval.
Definition http_parser := string -> option datetime.

(** [datetime.strptime(v, fmt)]: a non-[str] argument is a [TypeError]. *)
Definition strptime_json_time (strptime_http : http_parser) (v : pyval) : PyM datetime :=
  match v with
  | PStr s => match strptime_http s with Some t => ret t | None => raise ValueError end
  | _ => raise TypeError
  end.

(** [except (KeyError, ValueError): handler] *)
Definition catch_key_value {A} (m : PyM A) (handler : PyM A) : PyM A :=
  match m with
  | inr (KeyError _) | inr ValueError => handler
  | _ => m
  end.

(** [data['start']['timestamp']['time']] *)
Definition json_start_time_str (data : pyval) : PyM pyval :=
  st <- getitem data "start" ;;
  ts <- getitem st "timestamp" ;;
  getitem ts "time".

(** The inner [try] of [parse_iperf_file]: the start time. *)
Definition iperf_start_time (strptime_http : http_parser) (data : pyval)
  (filename : string) : PyM datetime :=
  catch_key_value
    (start_time_str <- json_start_time_str data ;;
     _json_time <- strptime_json_time strptime_http start_time_str ;;
     filename_time <- filename_timestamp filename ".json" ;;
     ret filename_time)
    (filename_timestamp filename ".json").

(** [second = interval['sum']['start']] and
    [throughput = interval['sum']['bits_per_second'] / 1e6]. *)
Definition iperf_interval (interval : pyval) : PyM (pyval * Q) :=
  s1 <- getitem interval "sum" ;;
  sec <- getitem s1 "start" ;;
  s2 <- getitem interval "sum" ;;
  bps <- getitem s2 "bits_per_second" ;;
  throughput <- div_1e6 bps ;;
  ret (sec, throughput).

Definition parse_iperf_body (json_load : json_loader) (strptime_http : http_parser)
  (fs : fsys) (filepath : string) : PyM parse_out :=
  let filename := basename filepath in
  text <- open_read fs filepath ;;
  data <- (match json_load text with Some d => ret d | None => raise ValueError end) ;;
  start_time <- iperf_start_time strptime_http data filename ;;
  ivs <- getitem data "intervals" ;;
  intervals <- py_iter ivs ;;
  throughputs <- mapM iperf_interval intervals ;;
  ret (Some start_time, throughputs).

Definition parse_iperf_file (json_load : json_loader) (strptime_http : http_parser)
  (fs : fsys) (filepath : string) : parse_out * list diag :=
  catch_all "iperf3" filepath (parse_iperf_body json_load strptime_http fs filepath).

(* ------------------------------------------------------------------ *)
(** ** [process_files]

    [data[interface][section]] is a function of the two keys; the dict
    literal of the source has every interface and every label of
    [TIME_SECTIONS], the only keys the loop ever uses. *)

Definition buckets := string -> string -> list Q.

Definition empty_data : buckets := fun _ _ => [].

(** [data[interface][section].append(throughput)] *)
Definition append_at (data : buckets) (interface section : string) (v : Q) : buckets :=
  fun i s =>
    if String.eqb i interface && String.eqb s section
    then (data i s ++ [v])%list else data i s.

(** [start_time.hour * 3600 + start_time.minute * 60 + start_time.second
    + second]: no reduction modulo 86400. *)
Definition seconds_since_midnight (t : datetime) (sec : pyval) : PyM pynum :=
  int_add (hour t * 3600 + minute t * 60 + second t)%Z sec.

(** The body of [for second, throughput in throughputs]. *)
Fixpoint add_samples (data : buckets) (interface : string) (t : datetime)
  (samples : list (pyval * Q)) : PyM buckets :=
  match samples with
  | [] => ret data
  | (sec, throughput) :: r =>
      x <- seconds_since_midnight t sec ;;
      let data' := match get_time_section (num_Q x) with
                   | Some section => append_at data interface section throughput
                   | None => data
                   end in
      add_samples data' interface t r
  end.

Definition interface_of (filename : string) : option string :=
  if contains "wlan0" filename then Some "wlan0"
  else if contains "wlan1" filename then Some "wlan1"
  else None.

(** The loop over [os.listdir(directory)]: the lines printed so far and
    the final dict, or the exception that escapes. *)
Fixpoint process_loop (directory : string) (parse_func : string -> parse_out * list diag)
  (file_pattern : string) (files : list string) (data : buckets)
  : list diag * PyM buckets :=
  match files with
  | [] => ([], ret data)
  | filename :: rest =>
      if contains file_pattern filename then
        let '((start_time, throughputs), printed) :=
          parse_func (path_join directory filename) in
        match start_time with
        | None =>
            let '(printed', r) := process_loop directory parse_func file_pattern rest data in
            ((printed ++ printed')%list, r)
        | Some t =>
            match interface_of filename with
            | None =>
                let '(printed', r) := process_loop directory parse_func file_pattern rest data in
                ((printed ++ printed')%list, r)
            | Some interface =>
                match add_samples data interface t throughputs with
                | inr e => (printed, inr e)
                | inl data' =>
                    let '(printed', r) :=
                      process_loop directory parse_func file_pattern rest data' in
                    ((printed ++ printed')%list, r)
                end
            end
        end
      else process_loop directory parse_func file_pattern rest data
  end.

Definition process_files (fs : fsys) (directory : string)
  (parse_func : string -> parse_out * list diag) (file_pattern : string)
  : list diag * PyM buckets :=
  match fs_listdir fs directory with
  | None => ([], raise OSError)
  | Some files => process_loop directory parse_func file_pattern files empty_data
  end.

(* ------------------------------------------------------------------ *)
(** ** [calc_stats]

    Values are exact rationals.  [round(x, 2)] rounds half to even and
    keeps the sign of [x] (so a small negative value gives [-0.0]);
    [str] of the result is the shortest decimal that reads back as the
    same float, which for a value with at most 15 significant digits
    (any throughput below 10^13 Mbit/s) is the rounded decimal with its
    trailing zeros dropped, keeping one digit after the point. *)

Definition digit_char (d : Z) : ascii := ascii_of_nat (48 + Z.to_nat d).

Fixpoint dec_aux (fuel : nat) (n : Z) (acc : string) : string :=
  match fuel with
  | O => acc
  | S f =>
      let acc' := String (digit_char (n mod 10)) acc in
      if (n <? 10)%Z then acc' else dec_aux f (n / 10) acc'
  end.

(** Decimal digits of [n >= 0]. *)
Definition dec (n : Z) : string := dec_aux (S (Z.to_nat (Z.log2 n))) n "".

Definition sign_str (neg : bool) : string := if neg then "-" else "".

(** [str(v)] for the float [v = (-1)^neg * d / 100], [d >= 0]. *)
Definition repr_hundredths (neg : bool) (d : Z) : string :=
  let k := (d / 100)%Z in
  let f := (d mod 100)%Z in
  sign_str neg ++ dec k ++ "." ++
  (if Z.eqb f 0 then "0"
   else if Z.eqb (f mod 10) 0 then dec (f / 10)
   else String (digit_char (f / 10)) (String (digit_char (f mod 10)) "")).

(** Nearest integer to [q >= 0], ties to even. *)
Definition round_half_even (q : Q) : Z :=
  let fl := Qfloor q in
  match Qcompare (q - inject_Z fl) (1 # 2) with
  | Lt => fl
  | Gt => (fl + 1)%Z
  | Eq => if Z.even fl then fl else (fl + 1)%Z
  end.

(** [round(x, 2)]: the sign and the number of hundredths. *)
Definition py_round2 (x : Q) : bool * Z :=
  (negb (Qle_bool 0 x), round_half_even (Qabs x * inject_Z 100)).

(** Nearest integer to [sqrt w] for [w >= 0], ties to even:
    [u = floor (2 * sqrt w)], computed as [Z.sqrt (4 a b) / b] for
    [w = a / b]. *)
Definition sqrt_round_half_even (w : Q) : Z :=
  let a := Qnum w in
  let b := Zpos (Qden w) in
  let u := (Z.sqrt (4 * a * b) / b)%Z in
  if Z.odd u && Z.eqb (u * u * b) (4 * a)
  then let k := ((u - 1) / 2)%Z in if Z.even k then k else (k + 1)%Z
  else ((u + 1) / 2)%Z.

Definition qsum (values : list Q) : Q := fold_left Qplus values 0.

Definition mean_of (values : list Q) : Q :=
  qsum values / inject_Z (Z.of_nat (length values)).

(** [statistics.stdev]: sum of squared deviations over [n - 1]. *)
Definition sample_variance (values : list Q) : Q :=
  let m := mean_of values in
  qsum (map (fun x => (x - m) * (x - m)) values) /
  inject_Z (Z.of_nat (length values) - 1).

(** [round(statistics.stdev(values), 2)] *)
Definition stdev_round2 (values : list Q) : bool * Z :=
  (false, sqrt_round_half_even (sample_variance values * inject_Z 10000)).

(** [" ± "] in UTF-8. *)
Definition pm_sep : string :=
  String " " (String (ascii_of_nat 194) (String (ascii_of_nat 177) " ")).

Definition calc_stats (values : list Q) : string :=
  match values with
  | [] => "0.0" ++ pm_sep ++ "0.0"
  | _ =>
      let mean := mean_of values in
      let stddev_r := if (1 <? length values)%nat then stdev_round2 values
                      else py_round2 0 in
      let '(mneg, md) := py_round2 mean in
      let '(sneg, sd) := stddev_r in
      repr_hundredths mneg md ++ pm_sep ++ repr_hundredths sneg sd
  end.



(* ------------------------------------------------------------------ *)
(** ** Reporters *)

(** Python counts code points: UTF-8 continuation bytes do not count. *)
Fixpoint cp_length (s : string) : nat :=
  match s with
  | EmptyString => 0
  | String c r =>
      if ((128 <=? nat_of_ascii c) && (nat_of_ascii c <? 192))%nat
      then cp_length r else S (cp_length r)
  end.

Fixpoint spaces (n : nat) : string :=
  match n with O => "" | S k => String " " (spaces k) end.

Fixpoint dashes (n : nat) : string :=
  match n with O => "" | S k => String "-" (dashes k) end.

(** [f"{s:<w}"] *)
Definition pad_left_align (w : nat) (s : string) : string :=
  s ++ spaces (w - cp_length s).

(** [f"{s:^w}"]: the extra space goes to the right. *)
Definition center (w : nat) (s : string) : string :=
  let pad := (w - cp_length s)%nat in
  spaces (pad / 2) ++ s ++ spaces (pad - pad / 2).

Definition section_labels : list string :=
  map (fun '(label, _, _) => label) TIME_SECTIONS.

Definition table_row (qperf_data iperf_data : buckets) (section : string) : string :=
  let w0_q := calc_stats (qperf_data "wlan0" section) in
  let w1_q := calc_stats (qperf_data "wlan1" section) in
  let w0_i := calc_stats (iperf_data "wlan0" section) in
  let w1_i := calc_stats (iperf_data "wlan1" section) in
  pad_left_align 14 section ++ " | " ++ center 16 w0_q ++ " | " ++ center 16 w1_q ++
  " | " ++ center 16 w0_i ++ " | " ++ center 16 w1_i.

(** The arguments of the successive [print] calls. *)
Definition print_table (qperf_data iperf_data : buckets) : list string :=
  [ String char_nl "WiFi Throughput Statistics (Mbps):";
    "Time Section   | wlan0 qperf      | wlan1 qperf      | wlan0 iperf3     | wlan1 iperf3     ";
    dashes 80 ] ++
  map (table_row qperf_data iperf_data) section_labels.

Definition csv_header : string :=
  "Time Section,wlan0 qperf (Mbps),wlan1 qperf (Mbps),wlan0 iperf3 (Mbps),wlan1 iperf3 (Mbps)".

Definition csv_row (qperf_data iperf_data : buckets) (section : string) : string :=
  let w0_q := calc_stats (qperf_data "wlan0" section) in
  let w1_q := calc_stats (qperf_data "wlan1" section) in
  let w0_i := calc_stats (iperf_data "wlan0" section) in
  let w1_i := calc_stats (iperf_data "wlan1" section) in
  section ++ "," ++ w0_q ++ "," ++ w1_q ++ "," ++ w0_i ++ "," ++ w1_i.

Definition exc_name (e : exc) : string :=
  match e with
  | KeyError _ => "KeyError" | TypeError => "TypeError" | ValueError => "ValueError"
  | IndexError => "IndexError" | OSError => "OSError"
  end.

(** [save_to_csv]: [open_result] is the outcome of [open(output_file,
    'w')]; the result is the text of the written file (if it was opened)
    and the printed lines (the message [str(e)] is abstracted by the
    exception's class). *)
Definition save_to_csv (HOME : string) (open_result : PyM unit)
  (qperf_data iperf_data : buckets) : option string * list string :=
  let output_file :=
    path_join (path_join HOME "build-qperf") "wifi_throughput_stats.csv" in
  match open_result with
  | inr e => (None, ["Error saving to CSV: " ++ exc_name e])
  | inl _ =>
      let writes :=
        (csv_header ++ String char_nl "") ::
        map (fun section => csv_row qperf_data iperf_data section ++ String char_nl "")
          section_labels in
      (Some (String.concat "" writes),
       [String char_nl "Results saved to " ++ output_file])
  end.

(* ------------------------------------------------------------------ *)
(** ** Configuration and the inputs of the worked examples *)

Definition QPERF_DIR (HOME : string) : string :=
  path_join (path_join HOME "build-qperf") "qperf_result".
Definition IPERF_DIR (HOME : string) : string :=
  path_join (path_join HOME "build-qperf") "iperf3_result".

(** [x] read as seconds since midnight of a single day. *)
Definition day_wrap (x : Q) : Q :=
  x - inject_Z (Qfloor (x / inject_Z 86400) * 86400).

(** A qperf directory with one run started at 23:59:50 whose only sample
    is 20 seconds later. *)
Definition late_name : string := "wlan0_qperf_throughput_rtt_20250605_235950.txt".
Definition late_fs : fsys := {|
  fs_read := fun p =>
    if String.eqb p (path_join (QPERF_DIR "/home/pi") late_name)
    then Some "second 20: 50.0 mbit/s" else None;
  fs_listdir := fun _ => Some [late_name] |}.

(** A qperf directory with one run started at midnight. *)
Definition w0_name : string := "wlan0_qperf_throughput_rtt_20250605_000000.txt".
Definition w0_fs : fsys := {|
  fs_read := fun p =>
    if String.eqb p (path_join (QPERF_DIR "/home/pi") w0_name)
    then Some "second 0: 50.0 mbit/s" else None;
  fs_listdir := fun _ => Some [w0_name] |}.
Definition w0_data : buckets :=
  match snd (process_files w0_fs (QPERF_DIR "/home/pi") (parse_qperf_file w0_fs)
               "qperf_throughput_rtt") with
  | inl d => d
  | inr _ => empty_data
  end.

(** An iperf3 directory with one result file, and a content whose only
    interval has a non-numeric start offset. *)
Definition iperf_name : string := "wlan1_iperf3_throughput_20250605_120000.json".
Definition bad_start_json : pyval :=
  PDict [("intervals", PList [PDict [("sum", PDict
    [("start", PStr "abc"); ("bits_per_second", PInt 100000000)])]])].
Definition iperf_fs : fsys := {|
  fs_read := fun p =>
    if String.eqb p (path_join (IPERF_DIR "/home/pi") iperf_name)
    then Some "{}" else None;
  fs_listdir := fun _ => Some [iperf_name] |}.

(** A qperf result whose second line carries the token ["1.2.3"]. *)
Definition bad_float_fs : fsys := {|
  fs_read := fun p =>
    if String.eqb p (path_join (QPERF_DIR "/home/pi") w0_name)
    then Some ("second 0: 50.0 mbit/s" ++ String char_nl "second 1: 1.2.3 mbit/s")
    else None;
  fs_listdir := fun _ => Some [w0_name] |}.

(** iperf3 contents for the start-time examples: one well-formed
    interval, and a [start.timestamp.time] field holding [t]. *)
Definition one_interval : pyval :=
  PList [PDict [("sum", PDict [("start", PInt 0); ("bits_per_second", PInt 100000000)])]].
Definition with_time (t : pyval) : pyval :=
  PDict [("start", PDict [("timestamp", PDict [("time", t)])]);
         ("intervals", one_interval)].

(** The worked example of the spec: one interval of 100000000 bit/s at
    offset 0, with no [start] field or a [start.timestamp.time] string. *)
Definition c8_content (tm : option string) : pyval :=
  match tm with
  | None => PDict [("intervals", one_interval)]
  | Some s => with_time (PStr s)
  end.

Fixpoint has_char (c : ascii) (s : string) : bool :=
  match s with
  | EmptyString => false
  | String x r => Ascii.eqb x c || has_char c r
  end.

(** Reading the reports back.  [read_csv] is [csv.reader] on a file
    without quotes: one row per newline-terminated line, fields split at
    commas.  [table_cells] splits a printed table row at ['|'] and
    strips the spaces around each cell. *)
Fixpoint lstrip (s : string) : string :=
  match s with
  | EmptyString => EmptyString
  | String c r => if Ascii.eqb c " " then lstrip r else s
  end.

Fixpoint rstrip (s : string) : string :=
  match s with
  | EmptyString => EmptyString
  | String c r =>
      let r' := rstrip r in
      if Ascii.eqb c " " && String.eqb r' "" then EmptyString else String c r'
  end.

Definition strip (s : string) : string := rstrip (lstrip s).

Definition table_cells (row : string) : list string := map strip (split_on "|" row).

Definition read_csv (content : string) : list (list string) :=
  map (split_on ",") (removelast (split_on char_nl content)).

Fixpoint all_chars (p : ascii -> bool) (s : string) : bool :=
  match s with
  | EmptyString => true
  | String c r => p c && all_chars p r
  end.

Definition first_char (s : string) : option ascii :=
  match s with EmptyString => None | String c _ => Some c end.

Fixpoint last_char (s : string) : option ascii :=
  match s with
  | EmptyString => None
  | String c r => match r with EmptyString => Some c | _ => last_char r end
  end.

(** An ASCII digit, the digits [str] of a float prints. *)
Definition is_ascii_digit (c : ascii) : bool :=
  ((48 <=? nat_of_ascii c) && (nat_of_ascii c <=? 57))%nat.

(** The characters [calc_stats] can print, and a printed summary that
    survives [strip] and both splits. *)
Definition stat_char (x : ascii) : bool :=
  is_ascii_digit x || Ascii.eqb x "-" || Ascii.eqb x "." || Ascii.eqb x " " ||
  Ascii.eqb x (ascii_of_nat 194) || Ascii.eqb x (ascii_of_nat 177).

Definition cell_ok (w : string) : Prop :=
  all_chars stat_char w = true /\
  exists c1 c2, first_char w = Some c1 /\ Ascii.eqb c1 " " = false /\
                last_char w = Some c2 /\ Ascii.eqb c2 " " = false.

(** [t.strftime('%Y%m%d_%H%M%S')] for a four-digit year: the timestamp
    that names the result files. *)
Definition digit2 (v : Z) : string :=
  String (digit_char (v / 10)) (String (digit_char (v mod 10)) "").

Definition strftime_ymd_hms (t : datetime) : string :=
  let y := year t in
  String (digit_char (y / 1000)) (String (digit_char (y / 100 mod 10))
  (String (digit_char (y / 10 mod 10)) (String (digit_char (y mod 10))
  (digit2 (month t) ++ digit2 (day t) ++ "_" ++
   digit2 (hour t) ++ digit2 (minute t) ++ digit2 (second t))))).

(* ================================================================== *)
(** * Properties *)

Lemma find_section_some x secs l :
  find_section x secs = Some l ->
  exists s e, In (l, s, e) secs /\ inject_Z s <= x /\ x <= inject_Z e.
Proof.
  induction secs as [|[[lab s] e] r IH]; simpl; [discriminate|].
  destruct (Qle_bool (inject_Z s) x) eqn:H1, (Qle_bool x (inject_Z e)) eqn:H2;
    simpl; intro H;
    try (destruct (IH H) as (s' & e' & Hin & Hs & He); exists s', e'; auto; fail).
  injection H as <-. exists s, e. rewrite Qle_bool_iff in H1, H2. auto.
Qed.

Lemma get_time_section_some x l :
  get_time_section x = Some l ->
  exists s e, In (l, s, e) TIME_SECTIONS /\ inject_Z s <= x /\ x <= inject_Z e /\
              (0 <= s)%Z /\ (e < 86400)%Z.
Proof.
  unfold get_time_section; intro H.
  destruct (find_section_some _ _ _ H) as (s & e & Hin & Hs & He).
  exists s, e. repeat split; auto;
  simpl in Hin; repeat destruct Hin as [Hin|Hin]; try contradiction;
  injection Hin; intros; subst; lia.
Qed.

Lemma get_time_section_in_day x l :
  get_time_section x = Some l -> 0 <= x /\ x < inject_Z 86400.
Proof.
  intro H. destruct (get_time_section_some _ _ H) as (s & e & _ & Hs & He & Hs0 & He0).
  split.
  - apply Qle_trans with (inject_Z s); auto.
    change 0 with (inject_Z 0). rewrite <- Zle_Qle. exact Hs0.
  - apply Qle_lt_trans with (inject_Z e); auto. rewrite <- Zlt_Qlt. exact He0.
Qed.

Lemma get_time_section_out_of_day x :
  x < 0 \/ inject_Z 86400 <= x -> get_time_section x = None.
Proof.
  intro H. destruct (get_time_section x) as [l|] eqn:E; [|reflexivity].
  apply get_time_section_in_day in E as [E1 E2].
  destruct H as [H|H].
  - exact (False_ind _ (Qlt_irrefl 0 (Qle_lt_trans _ _ _ E1 H))).
  - exact (False_ind _ (Qlt_irrefl x (Qlt_le_trans _ _ _ E2 H))).
Qed.

Lemma day_wrap_in_day x : 0 <= x -> x < inject_Z 86400 -> day_wrap x == x.
Proof.
  destruct x as [n d]. unfold Qle, Qlt, day_wrap. simpl. intros H1 H2.
  assert (Hf : (n * 1 / Z.pos (d * 86400) = 0)%Z).
  { apply Z.div_small. rewrite Pos2Z.inj_mul. lia. }
  unfold Qfloor. simpl. rewrite Hf. unfold Qeq. simpl. lia.
Qed.

(** C1 (code_bug): every interval of [TIME_SECTIONS] ends at h:59:00,
    so the last 59 seconds of each six-hour section fall in no section:
    21599 (05:59:59) and 86399 (23:59:59) give [None], while 21600 gives
    ["6h-11h59"]. *)
Theorem C1_time_section_gaps :
  get_time_section (inject_Z 21599) = None /\
  get_time_section (inject_Z 21600) = Some "6h-11h59" /\
  get_time_section (inject_Z 86399) = None /\
  get_time_section (inject_Z (-1)) = None /\
  get_time_section (inject_Z 86400) = None.
Proof. repeat split; reflexivity. Qed.

(** C7: on the empty list [calc_stats] returns the literal
    ["0.0 ± 0.0"]. *)
Theorem C7_calc_stats_empty : calc_stats [] = "0.0 ± 0.0".
Proof. reflexivity. Qed.

(** C2: the seconds since midnight are not reduced modulo 86400: a run
    started at 23:59:50 with a sample at offset 20 gives 86410, which is
    in no time section, so the sample lands in no bucket. *)
Theorem C2_no_midnight_wrap :
  (forall y mo d,
     seconds_since_midnight (mkdatetime y mo d 23 59 50) (PInt 20) = inl (NInt 86410)) /\
  get_time_section (inject_Z 86410) = None /\
  (forall y mo d data interface v,
     add_samples data interface (mkdatetime y mo d 23 59 50) [(PInt 20, v)] = inl data) /\
  process_files late_fs (QPERF_DIR "/home/pi") (parse_qperf_file late_fs)
    "qperf_throughput_rtt" = ([], inl empty_data).
Proof.
  repeat split; intros; reflexivity.
Qed.

Lemma add_samples_origin data interface t samples data' :
  add_samples data interface t samples = inl data' ->
  forall i l v, In v (data' i l) ->
  In v (data i l) \/
  (i = interface /\ exists sec x, In (sec, v) samples /\
     seconds_since_midnight t sec = inl x /\ get_time_section (num_Q x) = Some l).
Proof.
  revert data. induction samples as [|[sec tp] r IH]; simpl; intros data H i l v Hin.
  - injection H as <-. auto.
  - destruct (seconds_since_midnight t sec) as [x|e] eqn:Ex; simpl in H; [|discriminate].
    destruct (IH _ H i l v Hin) as [H1|(Hi & sec' & x' & H2 & H3 & H4)].
    + destruct (get_time_section (num_Q x)) as [section|] eqn:Es; [|auto].
      unfold append_at in H1.
      destruct (String.eqb i interface && String.eqb l section) eqn:Eb; auto.
      apply in_app_or in H1. destruct H1 as [H1|[H1|[]]]; auto.
      subst v. apply andb_prop in Eb as [E1 E2].
      apply String.eqb_eq in E1, E2. subst.
      right. split; auto. exists sec, x. auto.
    + right. split; auto. exists sec', x'. auto.
Qed.

Lemma process_loop_origin directory parse_func pat files :
  forall data printed data',
  process_loop directory parse_func pat files data = (printed, inl data') ->
  forall i l v, In v (data' i l) ->
  In v (data i l) \/
  exists filename t samples sec x,
    In filename files /\ contains pat filename = true /\
    fst (parse_func (path_join directory filename)) = (Some t, samples) /\
    interface_of filename = Some i /\ In (sec, v) samples /\
    seconds_since_midnight t sec = inl x /\ get_time_section (num_Q x) = Some l.
Proof.
  induction files as [|f rest IH]; simpl; intros data printed data' H i l v Hin.
  - injection H as _ <-. auto.
  - assert (Hlift : forall d, (exists filename t samples sec x,
      In filename rest /\ contains pat filename = true /\
      fst (parse_func (path_join directory filename)) = (Some t, samples) /\
      interface_of filename = Some i /\ In (sec, v) samples /\
      seconds_since_midnight t sec = inl x /\ get_time_section (num_Q x) = Some l) ->
      In v (d i l) \/ exists filename t samples sec x,
      (f = filename \/ In filename rest) /\ contains pat filename = true /\
      fst (parse_func (path_join directory filename)) = (Some t, samples) /\
      interface_of filename = Some i /\ In (sec, v) samples /\
      seconds_since_midnight t sec = inl x /\ get_time_section (num_Q x) = Some l).
    { intros d (fn & t & s & sec & x & H1 & H2). right.
      exists fn, t, s, sec, x. auto. }
    destruct (contains pat f) eqn:Ec.
    2: { destruct (IH _ _ _ H i l v Hin); auto. }
    destruct (parse_func (path_join directory f)) as [[st tps] pr] eqn:Ep.
    destruct st as [t|].
    2: { destruct (process_loop directory parse_func pat rest data) as [pr' r] eqn:Er.
         injection H as _ ->. destruct (IH _ _ _ Er i l v Hin); auto. }
    destruct (interface_of f) as [iface|] eqn:Ei.
    2: { destruct (process_loop directory parse_func pat rest data) as [pr' r] eqn:Er.
         injection H as _ ->. destruct (IH _ _ _ Er i l v Hin); auto. }
    destruct (add_samples data iface t tps) as [d1|e] eqn:Ea; [|discriminate].
    destruct (process_loop directory parse_func pat rest d1) as [pr' r] eqn:Er.
    injection H as _ ->.
    destruct (IH _ _ _ Er i l v Hin) as [H1|H1]; auto.
    destruct (add_samples_origin _ _ _ _ _ Ea i l v H1)
      as [H2|(-> & sec & x & H3 & H4 & H5)]; auto.
    right. exists f, t, tps, sec, x. rewrite Ep. auto 8.
Qed.

(** C5: every value in a bucket [(i, l)] of the dict returned by
    [process_files] is the throughput of a sample of a run listed in the
    directory, matched by the file pattern, parsed with a start time
    (a failed parse, start time [None], contributes nothing) and of
    interface [i], and the start time plus the sample's offset, read as
    seconds since midnight of one day, lies in the interval of [l]. *)
Theorem C5_bucket_origin fs directory parse_func pat printed data files i l v :
  fs_listdir fs directory = Some files ->
  process_files fs directory parse_func pat = (printed, inl data) ->
  In v (data i l) ->
  exists filename t samples sec x s e,
    In filename files /\ contains pat filename = true /\
    fst (parse_func (path_join directory filename)) = (Some t, samples) /\
    interface_of filename = Some i /\ In (sec, v) samples /\
    seconds_since_midnight t sec = inl x /\
    In (l, s, e) TIME_SECTIONS /\
    inject_Z s <= day_wrap (num_Q x) <= inject_Z e.
Proof.
  intros Hls Hp Hin. unfold process_files in Hp. rewrite Hls in Hp.
  destruct (process_loop_origin _ _ _ _ _ _ _ Hp i l v Hin)
    as [[]|(fn & t & smp & sec & x & H1 & H2 & H3 & H4 & H5 & H6 & H7)].
  destruct (get_time_section_some _ _ H7) as (s & e & Hs & Hle1 & Hle2 & _).
  destruct (get_time_section_in_day _ _ H7) as [D1 D2].
  exists fn, t, smp, sec, x, s, e.
  repeat split; auto; rewrite (day_wrap_in_day _ D1 D2); auto.
Qed.

Lemma C5_witness :
  exists filename t samples sec x s e,
    In filename [w0_name] /\ contains "qperf_throughput_rtt" filename = true /\
    fst (parse_qperf_file w0_fs (path_join (QPERF_DIR "/home/pi") filename))
      = (Some t, samples) /\
    interface_of filename = Some "wlan0" /\ In (sec, 500 # 10) samples /\
    seconds_since_midnight t sec = inl x /\
    In ("0h-5h59", s, e) TIME_SECTIONS /\
    inject_Z s <= day_wrap (num_Q x) <= inject_Z e.
Proof.
  apply (C5_bucket_origin w0_fs (QPERF_DIR "/home/pi") (parse_qperf_file w0_fs)
           "qperf_throughput_rtt" [] w0_data).
  - reflexivity.
  - vm_compute. reflexivity.
  - vm_compute. left. reflexivity.
Defined.

(* ------------------------------------------------------------------ *)
(** ** The parsers' error handling *)

Lemma bind_inl {A B} (m : PyM A) (k : A -> PyM B) r :
  bind m k = inl r -> exists a, m = inl a /\ k a = inl r.
Proof. destruct m as [a|e]; simpl; [eauto|discriminate]. Qed.

Lemma bind_raise {A B} (m : PyM A) (k : A -> PyM B) e :
  m = inr e -> bind m k = inr e.
Proof. intros ->. reflexivity. Qed.

Lemma catch_all_shape what filepath body :
  (exists r, body = inl r /\ catch_all what filepath body = (r, [])) \/
  (exists e, body = inr e /\
             catch_all what filepath body = (sentinel, [mkdiag what filepath e])).
Proof. destruct body as [r|e]; simpl; eauto. Qed.

Lemma catch_all_raise what filepath body e :
  body = inr e -> catch_all what filepath body = (sentinel, [mkdiag what filepath e]).
Proof. intros ->. reflexivity. Qed.

Lemma qperf_lines_raise ls line g1 g2 e :
  In line ls -> qperf_search line = Some (g1, g2) ->
  py_float_digits_dots g2 = inr e ->
  exists e', qperf_lines ls = inr e'.
Proof.
  intros Hin Hs Hf. induction ls as [|l r IH]; [destruct Hin|].
  simpl. destruct Hin as [->|Hin].
  - unfold qperf_line. rewrite Hs. simpl.
    destruct (py_int_digits g1) as [n|e']; simpl; [rewrite Hf; simpl|]; eauto.
  - destruct (qperf_line l) as [o|e']; simpl; [|eauto].
    destruct (IH Hin) as [e' ->]. simpl. eauto.
Qed.

(** The shared core of C4 and C10: a throughput token that is not a
    float makes the whole qperf file the sentinel. *)
Lemma qperf_bad_float_sentinel fs filepath text line g1 g2 e :
  fs_read fs filepath = Some text -> In line (lines text) ->
  qperf_search line = Some (g1, g2) -> py_float_digits_dots g2 = inr e ->
  exists e', parse_qperf_file fs filepath = (sentinel, [mkdiag "qperf" filepath e']).
Proof.
  intros Hr Hin Hs Hf. unfold parse_qperf_file, parse_qperf_body.
  destruct (filename_timestamp (basename filepath) ".txt") as [t|e1]; simpl; [|eauto].
  unfold open_read, decode_text. rewrite Hr. simpl. destruct (utf8_valid text); simpl; [|eauto].
  destruct (qperf_lines_raise _ _ _ _ _ Hin Hs Hf) as [e' ->]. simpl. eauto.
Qed.

(** C10: in [parse_qperf_file], a line matched by the pattern whose
    throughput token is not a float literal (such as ["1.2.3"]) makes
    the whole file the failure sentinel [(None, [])] with one printed
    diagnostic: the samples of the earlier lines are dropped too. *)
Theorem C10_bad_float_discards_file fs filepath text line g1 g2 e :
  fs_read fs filepath = Some text -> In line (lines text) ->
  qperf_search line = Some (g1, g2) -> py_float_digits_dots g2 = inr e ->
  exists e', parse_qperf_file fs filepath = (sentinel, [mkdiag "qperf" filepath e']).
Proof. apply qperf_bad_float_sentinel. Qed.

Lemma C10_witness :
  exists e', parse_qperf_file bad_float_fs (path_join (QPERF_DIR "/home/pi") w0_name)
             = (sentinel, [mkdiag "qperf" (path_join (QPERF_DIR "/home/pi") w0_name) e']).
Proof.
  apply (C10_bad_float_discards_file bad_float_fs (path_join (QPERF_DIR "/home/pi") w0_name)
           ("second 0: 50.0 mbit/s" ++ String char_nl "second 1: 1.2.3 mbit/s")
           "second 1: 1.2.3 mbit/s" (cps "1") (cps "1.2.3") ValueError).
  - reflexivity.
  - vm_compute. right. left. reflexivity.
  - reflexivity.
  - reflexivity.
Defined.

(** The search runs on code points and [\d] takes any decimal digit: in
    this line the first match is [second ٣: 5 mbit/s], so the token
    [1.2.3] after it is never converted. *)
Example qperf_search_first_match :
  qperf_search "second ٣: 5 mbit/s second 1: 1.2.3 mbit/s" = Some ([1635], [53])%Z.
Proof. vm_compute. reflexivity. Qed.

Lemma mapM_raise {A B} (f : A -> PyM B) l x e :
  In x l -> f x = inr e -> exists e', mapM f l = inr e'.
Proof.
  intros Hin Hf. induction l as [|y r IH]; [destruct Hin|].
  simpl. destruct Hin as [->|Hin].
  - rewrite Hf. simpl. eauto.
  - destruct (f y) as [b|e']; simpl; [|eauto].
    destruct (IH Hin) as [e' ->]. simpl. eauto.
Qed.

Lemma iperf_start_time_filename strptime_http data filename t :
  iperf_start_time strptime_http data filename = inl t ->
  filename_timestamp filename ".json" = inl t.
Proof.
  unfold iperf_start_time, catch_key_value.
  destruct (json_start_time_str data) as [v|e]; simpl.
  - destruct (strptime_json_time strptime_http v) as [jt|e]; simpl.
    + destruct (filename_timestamp filename ".json") as [a|e]; simpl; auto.
      destruct e; discriminate.
    + destruct e; try discriminate; auto.
  - destruct e; try discriminate; auto.
Qed.

Lemma qperf_shape fs filepath :
  (exists t samples, parse_qperf_file fs filepath = ((Some t, samples), [])) \/
  (exists e, parse_qperf_file fs filepath = (sentinel, [mkdiag "qperf" filepath e])).
Proof.
  unfold parse_qperf_file.
  destruct (catch_all_shape "qperf" filepath (parse_qperf_body fs filepath))
    as [(r & Hb & ->)|(e & _ & ->)]; [left|right; eauto].
  unfold parse_qperf_body in Hb.
  destruct (bind_inl _ _ _ Hb) as (t & _ & Hb1).
  destruct (bind_inl _ _ _ Hb1) as (f & _ & Hb2).
  destruct (bind_inl _ _ _ Hb2) as (text & _ & Hb3).
  destruct (bind_inl _ _ _ Hb3) as (smp & _ & Hb4).
  injection Hb4 as <-. eauto.
Qed.

Lemma iperf_shape json_load strptime_http fs filepath :
  (exists t samples,
     parse_iperf_file json_load strptime_http fs filepath = ((Some t, samples), [])) \/
  (exists e, parse_iperf_file json_load strptime_http fs filepath
             = (sentinel, [mkdiag "iperf3" filepath e])).
Proof.
  unfold parse_iperf_file.
  destruct (catch_all_shape "iperf3" filepath
              (parse_iperf_body json_load strptime_http fs filepath))
    as [(r & Hb & ->)|(e & _ & ->)]; [left|right; eauto].
  unfold parse_iperf_body in Hb.
  destruct (bind_inl _ _ _ Hb) as (text & _ & Hb1).
  destruct (bind_inl _ _ _ Hb1) as (data & _ & Hb2).
  destruct (bind_inl _ _ _ Hb2) as (t & _ & Hb3).
  destruct (bind_inl _ _ _ Hb3) as (ivs & _ & Hb4).
  destruct (bind_inl _ _ _ Hb4) as (l & _ & Hb5).
  destruct (bind_inl _ _ _ Hb5) as (smp & _ & Hb6).
  injection Hb6 as <-. eauto.
Qed.

(** Whatever happens after the file's text is read and decoded, an
    exception raised there gives the sentinel. *)
Lemma iperf_after_decode_raise json_load strptime_http fs filepath text data :
  fs_read fs filepath = Some text -> json_load text = Some data ->
  (forall t, iperf_start_time strptime_http data (basename filepath) = inl t ->
   exists e, (ivs <- getitem data "intervals" ;; intervals <- py_iter ivs ;;
              throughputs <- mapM iperf_interval intervals ;;
              ret (Some t, throughputs)) = inr e) ->
  exists e, parse_iperf_file json_load strptime_http fs filepath
            = (sentinel, [mkdiag "iperf3" filepath e]).
Proof.
  intros Hr Hj Hk. unfold parse_iperf_file, parse_iperf_body, open_read.
  rewrite Hr. simpl. rewrite Hj. simpl.
  destruct (iperf_start_time strptime_http data (basename filepath)) as [t|e] eqn:Et;
    simpl; [|eauto].
  destruct (Hk t eq_refl) as [e He]. rewrite He. simpl. eauto.
Qed.

(** C4 (corrected): each parser turns every exception raised inside it
    into the failure sentinel [(None, [])] with one printed diagnostic
    naming the file and the exception, and otherwise returns a start
    time with no diagnostic.  A missing or unreadable file, a qperf file
    that is not UTF-8, a malformed filename timestamp, a qperf throughput
    token that is not a float, undecodable JSON, a missing [intervals]
    or one that is not iterable (a number, a bool, [null]), an interval
    without the expected structure and a non-numeric [bits_per_second]
    all raise, so all give the sentinel, and [process_files] goes on
    with the next file.  Two malformed structures are not downgraded:
    an [intervals] that is an empty dict or an empty string is iterated
    and gives the filename time with no sample, and [parse_iperf_file]
    does not check the type of [sum.start]: a non-numeric start offset
    comes back inside a sample, not as the sentinel. *)
Theorem C4_parsers_fail_soft :
  (forall fs filepath,
     (exists t samples, parse_qperf_file fs filepath = ((Some t, samples), [])) \/
     (exists e, parse_qperf_file fs filepath = (sentinel, [mkdiag "qperf" filepath e]))) /\
  (forall json_load strptime_http fs filepath,
     (exists t samples,
        parse_iperf_file json_load strptime_http fs filepath = ((Some t, samples), [])) \/
     (exists e, parse_iperf_file json_load strptime_http fs filepath
                = (sentinel, [mkdiag "iperf3" filepath e]))) /\
  (forall fs filepath, fs_read fs filepath = None ->
     exists e, parse_qperf_file fs filepath = (sentinel, [mkdiag "qperf" filepath e])) /\
  (forall json_load strptime_http fs filepath, fs_read fs filepath = None ->
     parse_iperf_file json_load strptime_http fs filepath
     = (sentinel, [mkdiag "iperf3" filepath OSError])) /\
  (forall fs filepath text, fs_read fs filepath = Some text -> utf8_valid text = false ->
     exists e, parse_qperf_file fs filepath = (sentinel, [mkdiag "qperf" filepath e])) /\
  (forall fs filepath e, filename_timestamp (basename filepath) ".txt" = inr e ->
     parse_qperf_file fs filepath = (sentinel, [mkdiag "qperf" filepath e])) /\
  (forall json_load strptime_http fs filepath e,
     filename_timestamp (basename filepath) ".json" = inr e ->
     exists e', parse_iperf_file json_load strptime_http fs filepath
                = (sentinel, [mkdiag "iperf3" filepath e'])) /\
  (forall fs filepath text line g1 g2 e,
     fs_read fs filepath = Some text -> In line (lines text) ->
     qperf_search line = Some (g1, g2) -> py_float_digits_dots g2 = inr e ->
     exists e', parse_qperf_file fs filepath = (sentinel, [mkdiag "qperf" filepath e'])) /\
  (forall json_load strptime_http fs filepath text,
     fs_read fs filepath = Some text -> json_load text = None ->
     parse_iperf_file json_load strptime_http fs filepath
     = (sentinel, [mkdiag "iperf3" filepath ValueError])) /\
  (forall json_load strptime_http fs filepath text data e,
     fs_read fs filepath = Some text -> json_load text = Some data ->
     getitem data "intervals" = inr e ->
     exists e', parse_iperf_file json_load strptime_http fs filepath
                = (sentinel, [mkdiag "iperf3" filepath e'])) /\
  (forall json_load strptime_http fs filepath text data ivs e,
     fs_read fs filepath = Some text -> json_load text = Some data ->
     getitem data "intervals" = inl ivs -> py_iter ivs = inr e ->
     exists e', parse_iperf_file json_load strptime_http fs filepath
                = (sentinel, [mkdiag "iperf3" filepath e'])) /\
  (forall b, py_iter PNone = inr TypeError /\ py_iter (PBool b) = inr TypeError) /\
  (forall z q, py_iter (PInt z) = inr TypeError /\ py_iter (PFloat q) = inr TypeError) /\
  (forall json_load strptime_http fs filepath text data ivs l iv e,
     fs_read fs filepath = Some text -> json_load text = Some data ->
     getitem data "intervals" = inl ivs -> py_iter ivs = inl l -> In iv l ->
     iperf_interval iv = inr e ->
     exists e', parse_iperf_file json_load strptime_http fs filepath
                = (sentinel, [mkdiag "iperf3" filepath e'])) /\
  (forall iv s1 sec bps,
     getitem iv "sum" = inl s1 -> getitem s1 "start" = inl sec ->
     getitem s1 "bits_per_second" = inl bps -> as_num bps = None ->
     iperf_interval iv = inr TypeError) /\
  (forall directory parse_func pat f rest data printed,
     contains pat f = true -> parse_func (path_join directory f) = (sentinel, printed) ->
     process_loop directory parse_func pat (f :: rest) data =
     let '(printed', r) := process_loop directory parse_func pat rest data in
     ((printed ++ printed')%list, r)) /\
  (parse_iperf_file (fun _ => Some (PDict [("intervals", PDict [])])) (fun _ => None)
     iperf_fs (path_join (IPERF_DIR "/home/pi") iperf_name)
   = ((Some (mkdatetime 2025 6 5 12 0 0), []), []) /\
   parse_iperf_file (fun _ => Some (PDict [("intervals", PStr "")])) (fun _ => None)
     iperf_fs (path_join (IPERF_DIR "/home/pi") iperf_name)
   = ((Some (mkdatetime 2025 6 5 12 0 0), []), [])) /\
  (exists t v,
     parse_iperf_file (fun _ => Some bad_start_json) (fun _ => None) iperf_fs
       (path_join (IPERF_DIR "/home/pi") iperf_name)
     = ((Some t, [(PStr "abc", v)]), [])).
Proof.
  split; [exact qperf_shape|].
  split; [exact iperf_shape|].
  split.
  { intros fs filepath Hr. unfold parse_qperf_file, parse_qperf_body.
    destruct (filename_timestamp (basename filepath) ".txt"); simpl; [|eauto].
    unfold open_read. rewrite Hr. simpl. eauto. }
  split.
  { intros json_load strptime_http fs filepath Hr.
    unfold parse_iperf_file, parse_iperf_body, open_read. rewrite Hr. reflexivity. }
  split.
  { intros fs filepath text Hr Hv. unfold parse_qperf_file, parse_qperf_body.
    destruct (filename_timestamp (basename filepath) ".txt"); simpl; [|eauto].
    unfold open_read, decode_text. rewrite Hr. simpl. rewrite Hv. simpl. eauto. }
  split.
  { intros fs filepath e He. unfold parse_qperf_file, parse_qperf_body.
    rewrite He. reflexivity. }
  split.
  { intros json_load strptime_http fs filepath e He.
    destruct (fs_read fs filepath) as [text|] eqn:Hr.
    2: { unfold parse_iperf_file, parse_iperf_body, open_read. rewrite Hr.
         eexists. reflexivity. }
    destruct (json_load text) as [data|] eqn:Hj.
    2: { unfold parse_iperf_file, parse_iperf_body, open_read.
         rewrite Hr. simpl. rewrite Hj. eexists. reflexivity. }
    apply (iperf_after_decode_raise _ _ _ _ _ _ Hr Hj).
    intros t Ht. apply iperf_start_time_filename in Ht. congruence. }
  split; [exact qperf_bad_float_sentinel|].
  split.
  { intros json_load strptime_http fs filepath text Hr Hj.
    unfold parse_iperf_file, parse_iperf_body, open_read.
    rewrite Hr. simpl. rewrite Hj. reflexivity. }
  split.
  { intros json_load strptime_http fs filepath text data e Hr Hj He.
    apply (iperf_after_decode_raise _ _ _ _ _ _ Hr Hj).
    intros t _. rewrite He. simpl. eauto. }
  split.
  { intros json_load strptime_http fs filepath text data ivs e Hr Hj Hivs He.
    apply (iperf_after_decode_raise _ _ _ _ _ _ Hr Hj).
    intros t _. rewrite Hivs. simpl. rewrite He. simpl. eauto. }
  split; [split; reflexivity|].
  split; [split; reflexivity|].
  split.
  { intros json_load strptime_http fs filepath text data ivs l iv e Hr Hj Hivs Hl Hin He.
    apply (iperf_after_decode_raise _ _ _ _ _ _ Hr Hj).
    intros t _. rewrite Hivs. simpl. rewrite Hl. simpl.
    destruct (mapM_raise _ _ _ _ Hin He) as [e' ->]. simpl. eauto. }
  split.
  { intros iv s1 sec bps H1 H2 H3 H4. unfold iperf_interval.
    rewrite H1. simpl. rewrite H2. simpl. rewrite H3. simpl.
    unfold div_1e6. rewrite H4. reflexivity. }
  split.
  { intros directory parse_func pat f rest data printed H1 H2.
    cbn [process_loop]. rewrite H1, H2. reflexivity. }
  split; [split; vm_compute; reflexivity|].
  eexists _, _. vm_compute. reflexivity.
Qed.

Lemma C4_counterexample :
  fst (parse_iperf_file (fun _ => Some bad_start_json) (fun _ => None) iperf_fs
         (path_join (IPERF_DIR "/home/pi") iperf_name)) <> sentinel /\
  snd (process_files iperf_fs (IPERF_DIR "/home/pi")
         (parse_iperf_file (fun _ => Some bad_start_json) (fun _ => None) iperf_fs)
         "iperf3_throughput") = inr TypeError.
Proof. split; vm_compute; [discriminate|reflexivity]. Qed.

(** The start time computed when [start.timestamp.time] is absent or is
    a string, whatever [strptime] makes of that string. *)
Lemma iperf_start_time_absent_or_string strptime_http data filename t :
  filename_timestamp filename ".json" = inl t ->
  (exists k, json_start_time_str data = inr (KeyError k)) \/
  (exists s, json_start_time_str data = inl (PStr s)) ->
  iperf_start_time strptime_http data filename = inl t.
Proof.
  intros Hf [(k & Hk)|(s & Hs)]; unfold iperf_start_time, catch_key_value.
  - rewrite Hk. simpl. exact Hf.
  - rewrite Hs. simpl. destruct (strptime_http s); simpl; rewrite Hf; reflexivity.
Qed.


(** The filename timestamp wins over a JSON time that [strptime] reads
    as another time, and over one it rejects. *)
Example iperf_time_field_ignored :
  fst (parse_iperf_file (fun _ => Some (with_time (PStr "Mon, 02 Jun 2025 03:04:05 GMT")))
         (fun _ => Some (mkdatetime 2025 6 2 3 4 5)) iperf_fs
         (path_join (IPERF_DIR "/home/pi") iperf_name))
  = (Some (mkdatetime 2025 6 5 12 0 0), [(PInt 0, 100000000 # 1000000)]) /\
  fst (parse_iperf_file (fun _ => Some (with_time (PStr "garbage"))) (fun _ => None) iperf_fs
         (path_join (IPERF_DIR "/home/pi") iperf_name))
  = (Some (mkdatetime 2025 6 5 12 0 0), [(PInt 0, 100000000 # 1000000)]).
Proof. split; vm_compute; reflexivity. Qed.

(** C6 (code bug): the filename-named file
    [wlan1_iperf3_throughput_20250605_120000.json] carries a valid
    timestamp, but when its JSON has a [start.timestamp.time] that is
    not a string (here the number 5), [datetime.strptime] raises
    [TypeError], which the inner [except (KeyError, ValueError)] meant
    as the fallback for a missing or invalid JSON timestamp does not
    catch: the file becomes the failure sentinel instead of getting its
    filename timestamp.  A file without [intervals] is the sentinel
    too. *)
Lemma C6_counterexample :
  filename_timestamp iperf_name ".json" = inl (mkdatetime 2025 6 5 12 0 0) /\
  parse_iperf_file (fun _ => Some (with_time (PInt 5))) (fun _ => None) iperf_fs
    (path_join (IPERF_DIR "/home/pi") iperf_name)
  = (sentinel, [mkdiag "iperf3" (path_join (IPERF_DIR "/home/pi") iperf_name) TypeError]) /\
  fst (parse_iperf_file (fun _ => Some (PDict [])) (fun _ => None) iperf_fs
         (path_join (IPERF_DIR "/home/pi") iperf_name)) = sentinel.
Proof. repeat split; vm_compute; reflexivity. Qed.

(* ------------------------------------------------------------------ *)
(** ** Paths *)

Lemma str_app_assoc (a b c : string) : (a ++ b) ++ c = a ++ (b ++ c).
Proof. induction a as [|x r IH]; simpl; [reflexivity|]. rewrite IH. reflexivity. Qed.

Lemma split_on_no_char c s : has_char c s = false -> split_on c s = [s].
Proof.
  induction s as [|x r IH]; simpl; [reflexivity|].
  intro H. apply orb_false_iff in H as [H1 H2]. rewrite H1, (IH H2). reflexivity.
Qed.

Lemma split_on_app_sep c a b :
  exists p l, split_on c (a ++ String c b) = p :: l ++ split_on c b.
Proof.
  induction a as [|x r IH]; simpl.
  - rewrite Ascii.eqb_refl. exists EmptyString, []. reflexivity.
  - destruct IH as (p & l & ->).
    destruct (Ascii.eqb x c).
    + exists EmptyString, (p :: l). reflexivity.
    + exists (String x p), l. reflexivity.
Qed.

Lemma basename_no_slash b : has_char "/" b = false -> basename b = b.
Proof. intro H. unfold basename. rewrite (split_on_no_char _ _ H). reflexivity. Qed.

Lemma basename_after_slash a b : has_char "/" b = false -> basename (a ++ String "/" b) = b.
Proof.
  intro H. unfold basename. destruct (split_on_app_sep "/" a b) as (p & l & ->).
  rewrite (split_on_no_char _ _ H).
  change (p :: l ++ [b])%list with ((p :: l) ++ [b])%list. apply last_last.
Qed.

Lemma ends_with_slash a :
  String.eqb (substring (String.length a - 1) 1 a) "/" = true ->
  exists a', a = a' ++ "/".
Proof.
  induction a as [|c r IH]; [discriminate|].
  destruct r as [|c' r'].
  - simpl. intro H. exists EmptyString.
    destruct (Ascii.eqb c "/") eqn:E; [|discriminate].
    apply Ascii.eqb_eq in E. subst. reflexivity.
  - intro H.
    assert (Hr : String.eqb (substring (String.length (String c' r') - 1) 1 (String c' r')) "/" = true).
    { simpl in H |- *. rewrite Nat.sub_0_r in *. exact H. }
    destruct (IH Hr) as (a' & Ha). exists (String c a'). simpl. rewrite <- Ha. reflexivity.
Qed.

Lemma basename_path_join a b : has_char "/" b = false -> basename (path_join a b) = b.
Proof.
  intro H. unfold path_join.
  assert (Hp : String.prefix "/" b = false).
  { destruct b as [|x r]; [reflexivity|]. simpl in H.
    apply orb_false_iff in H as [H _].
    change (String.prefix "/" (String x r)) with
      (if ascii_dec "/" x then String.prefix "" r else false).
    destruct (ascii_dec "/" x) as [<-|]; [discriminate|reflexivity]. }
  rewrite Hp.
  destruct (String.eqb a "") ; [apply basename_no_slash; exact H|].
  destruct (String.eqb (substring (String.length a - 1) 1 a) "/") eqn:E.
  - destruct (ends_with_slash a E) as (a' & ->).
    rewrite str_app_assoc. apply basename_after_slash. exact H.
  - apply basename_after_slash. exact H.
Qed.

(* ------------------------------------------------------------------ *)
(** ** The worked iperf3 example *)

Lemma c8_parse json_load strptime_http fs directory text tm :
  fs_read fs (path_join directory iperf_name) = Some text ->
  json_load text = Some (c8_content tm) ->
  parse_iperf_file json_load strptime_http fs (path_join directory iperf_name)
  = ((Some (mkdatetime 2025 6 5 12 0 0), [(PInt 0, 100000000 # 1000000)]), []).
Proof.
  intros Hr Hj.
  assert (Hb : basename (path_join directory iperf_name) = iperf_name)
    by (apply basename_path_join; reflexivity).
  assert (Hf : filename_timestamp iperf_name ".json" = inl (mkdatetime 2025 6 5 12 0 0))
    by (vm_compute; reflexivity).
  assert (Ht : iperf_start_time strptime_http (c8_content tm) iperf_name
               = inl (mkdatetime 2025 6 5 12 0 0)).
  { apply iperf_start_time_absent_or_string; [exact Hf|].
    destruct tm as [s|]; [right; exists s | left; exists "start"]; reflexivity. }
  unfold parse_iperf_file, parse_iperf_body, open_read.
  rewrite Hb, Hr. simpl. rewrite Hj. simpl. rewrite Ht. simpl.
  destruct tm; reflexivity.
Qed.

(** C8: a directory whose only entry is
    [wlan1_iperf3_throughput_20250605_120000.json], holding one interval
    [{sum: {start: 0, bits_per_second: 100000000}}] (with no start time
    field or a string one), gives the bucket [(wlan1, "12h-17h59")]
    the single value [100.0], prints nothing, and leaves every other
    bucket empty. *)
Theorem C8_single_iperf_file fs json_load strptime_http directory text tm
  (Hls : fs_listdir fs directory = Some [iperf_name])
  (Hr : fs_read fs (path_join directory iperf_name) = Some text)
  (Hj : json_load text = Some (c8_content tm)) :
  exists data,
    process_files fs directory (parse_iperf_file json_load strptime_http fs)
      "iperf3_throughput" = ([], inl data) /\
    Forall2 Qeq (data "wlan1" "12h-17h59") [100] /\
    (forall i s, i <> "wlan1" \/ s <> "12h-17h59" -> data i s = []).
Proof.
  unfold process_files. rewrite Hls. simpl process_loop.
  rewrite (c8_parse _ _ _ _ _ _ Hr Hj).
  eexists. split; [reflexivity|]. split.
  - simpl. constructor; [reflexivity | constructor].
  - intros i s Hne. unfold append_at, empty_data. simpl.
    destruct (String.eqb_spec i "wlan1"); destruct (String.eqb_spec s "12h-17h59");
      simpl; tauto.
Qed.

Lemma C8_witness :
  fs_listdir iperf_fs (IPERF_DIR "/home/pi") = Some [iperf_name] /\
  fs_read iperf_fs (path_join (IPERF_DIR "/home/pi") iperf_name) = Some "{}" /\
  exists data,
    process_files iperf_fs (IPERF_DIR "/home/pi")
      (parse_iperf_file (fun _ => Some (c8_content None)) (fun _ => None) iperf_fs)
      "iperf3_throughput" = ([], inl data) /\
    Forall2 Qeq (data "wlan1" "12h-17h59") [100] /\
    (forall i s, i <> "wlan1" \/ s <> "12h-17h59" -> data i s = []).
Proof.
  split; [reflexivity|]. split; [vm_compute; reflexivity|].
  apply (C8_single_iperf_file iperf_fs (fun _ => Some (c8_content None)) (fun _ => None)
           (IPERF_DIR "/home/pi") "{}" None); [reflexivity | vm_compute; reflexivity | reflexivity].
Defined.

(* ------------------------------------------------------------------ *)
(** ** [str] of a rounded value against the [.2f] format *)

Lemma str_length_app a b : String.length (a ++ b) = (String.length a + String.length b)%nat.
Proof. induction a as [|x r IH]; simpl; [reflexivity|]. rewrite IH. reflexivity. Qed.








(* ------------------------------------------------------------------ *)
(** ** Reading the CSV file back *)

Lemma str_app_nil s : s ++ "" = s.
Proof. induction s as [|c r IH]; simpl; [reflexivity|]. rewrite IH. reflexivity. Qed.

Lemma has_char_app c a b : has_char c (a ++ b) = has_char c a || has_char c b.
Proof. induction a as [|x r IH]; simpl; [reflexivity|]. rewrite IH, orb_assoc. reflexivity. Qed.

Lemma all_chars_app p a b : all_chars p (a ++ b) = all_chars p a && all_chars p b.
Proof. induction a as [|x r IH]; simpl; [reflexivity|]. rewrite IH, andb_assoc. reflexivity. Qed.

Lemma has_char_all_chars p c s : all_chars p s = true -> p c = false -> has_char c s = false.
Proof.
  induction s as [|x r IH]; simpl; [reflexivity|].
  intros H Hc. apply andb_true_iff in H as [Hx Hr]. rewrite (IH Hr Hc), orb_false_r.
  destruct (Ascii.eqb_spec x c) as [->|]; [congruence|reflexivity].
Qed.

Lemma split_on_app_nochar c a b :
  has_char c a = false -> split_on c (a ++ String c b) = a :: split_on c b.
Proof.
  induction a as [|x r IH]; simpl.
  - rewrite Ascii.eqb_refl. reflexivity.
  - intro H. apply orb_false_iff in H as [Hx Hr]. rewrite Hx, (IH Hr). reflexivity.
Qed.

Lemma first_char_app a b :
  a <> "" -> first_char (a ++ b) = first_char a.
Proof. destruct a; [contradiction|reflexivity]. Qed.

Lemma last_char_app a b :
  b <> "" -> last_char (a ++ b) = last_char b.
Proof.
  intro Hb. induction a as [|x r IH]; simpl; [reflexivity|].
  destruct (r ++ b) eqn:E; [|exact IH].
  destruct r; simpl in E; [contradiction|discriminate].
Qed.

Lemma all_chars_first p s c : all_chars p s = true -> first_char s = Some c -> p c = true.
Proof.
  destruct s as [|x r]; simpl; [discriminate|].
  intros H Hc. injection Hc as <-. apply andb_true_iff in H as [H _]. exact H.
Qed.

Lemma all_chars_last p s c : all_chars p s = true -> last_char s = Some c -> p c = true.
Proof.
  induction s as [|x r IH]; simpl; [discriminate|].
  intros H Hc. apply andb_true_iff in H as [Hx Hr].
  destruct r as [|y r']; [injection Hc as <-; exact Hx|]. exact (IH Hr Hc).
Qed.

Lemma first_char_some s : s <> "" -> exists c, first_char s = Some c.
Proof. destruct s as [|c r]; [contradiction|]. exists c. reflexivity. Qed.

Lemma last_char_some s : s <> "" -> exists c, last_char s = Some c.
Proof.
  induction s as [|c r IH]; [contradiction|]. intros _. simpl.
  destruct r as [|y r']; [exists c; reflexivity|]. apply IH. discriminate.
Qed.

(** [str.strip()] of a cell padded with spaces. *)
Lemma lstrip_padded p w c :
  first_char w = Some c -> Ascii.eqb c " " = false -> lstrip (spaces p ++ w) = w.
Proof.
  intros Hf Hc. induction p as [|p IH]; simpl; [|exact IH].
  destruct w as [|x r]; [discriminate|]. injection Hf as ->. simpl. rewrite Hc. reflexivity.
Qed.

Lemma rstrip_spaces q : rstrip (spaces q) = "".
Proof. induction q as [|q IH]; simpl; [reflexivity|]. rewrite IH. reflexivity. Qed.

Lemma rstrip_padded w q c :
  last_char w = Some c -> Ascii.eqb c " " = false -> rstrip (w ++ spaces q) = w.
Proof.
  intros Hl Hc. induction w as [|x r IH]; [discriminate|]. simpl.
  destruct r as [|y r'].
  - simpl in Hl |- *. injection Hl as ->. rewrite rstrip_spaces, Hc. reflexivity.
  - rewrite (IH Hl). simpl. rewrite andb_false_r. reflexivity.
Qed.

Lemma strip_padded p w q c1 c2 :
  first_char w = Some c1 -> Ascii.eqb c1 " " = false ->
  last_char w = Some c2 -> Ascii.eqb c2 " " = false ->
  strip (spaces p ++ w ++ spaces q) = w.
Proof.
  intros Hf H1 Hl H2. unfold strip.
  assert (Hw : w <> "") by (intros ->; discriminate).
  rewrite (lstrip_padded p (w ++ spaces q) c1); [|rewrite first_char_app; assumption|exact H1].
  apply (rstrip_padded w q c2 Hl H2).
Qed.

Lemma spaces_snoc q : spaces q ++ " " = spaces (S q).
Proof. induction q as [|q IH]; simpl; [reflexivity|]. rewrite IH. reflexivity. Qed.

Lemma digit_char_is_digit d : (0 <= d < 10)%Z -> is_ascii_digit (digit_char d) = true.
Proof.
  intro H.
  assert (d = 0 \/ d = 1 \/ d = 2 \/ d = 3 \/ d = 4 \/ d = 5 \/ d = 6 \/ d = 7 \/ d = 8 \/ d = 9)%Z
    as Hd by lia.
  repeat destruct Hd as [-> | Hd]; [reflexivity ..|]. subst. reflexivity.
Qed.

Lemma digit_not_space x : is_ascii_digit x = true -> Ascii.eqb x " " = false.
Proof. intro H. destruct (Ascii.eqb_spec x " ") as [->|]; [discriminate|reflexivity]. Qed.

Lemma digit_stat_char x : is_ascii_digit x = true -> stat_char x = true.
Proof. intro H. unfold stat_char. rewrite H. reflexivity. Qed.

Lemma all_chars_mono (p q : ascii -> bool) s :
  (forall x, p x = true -> q x = true) -> all_chars p s = true -> all_chars q s = true.
Proof.
  intro Hpq. induction s as [|x r IH]; simpl; [reflexivity|].
  intro H. apply andb_true_iff in H as [Hx Hr]. rewrite (Hpq _ Hx), (IH Hr). reflexivity.
Qed.

Lemma dec_aux_digits fuel n acc :
  all_chars is_ascii_digit acc = true -> all_chars is_ascii_digit (dec_aux fuel n acc) = true.
Proof.
  revert n acc. induction fuel as [|f IH]; intros n acc H; cbn [dec_aux]; [exact H|].
  assert (Hs : all_chars is_ascii_digit (String (digit_char (n mod 10)) acc) = true).
  { cbn [all_chars]. rewrite digit_char_is_digit, H; [reflexivity|].
    apply Z.mod_pos_bound. lia. }
  destruct (n <? 10)%Z; [exact Hs | apply IH; exact Hs].
Qed.

Lemma dec_aux_nonempty fuel n acc : acc <> "" -> dec_aux fuel n acc <> "".
Proof.
  revert n acc. induction fuel as [|f IH]; intros n acc H; cbn [dec_aux]; [exact H|].
  destruct (n <? 10)%Z; [discriminate | apply IH; discriminate].
Qed.

Lemma dec_digits n : all_chars is_ascii_digit (dec n) = true /\ dec n <> "".
Proof.
  split; [apply dec_aux_digits; reflexivity|].
  unfold dec. cbn [dec_aux]. destruct (n <? 10)%Z; [discriminate | apply dec_aux_nonempty; discriminate].
Qed.

(** The hundredths part printed after the point. *)
Lemma repr_tail_digits d :
  let f := (d mod 100)%Z in
  let t := if Z.eqb f 0 then "0"
           else if Z.eqb (f mod 10) 0 then dec (f / 10)
           else String (digit_char (f / 10)) (String (digit_char (f mod 10)) "") in
  all_chars is_ascii_digit t = true /\ t <> "".
Proof.
  intros f t. subst t.
  destruct (Z.eqb f 0); [split; [reflexivity|discriminate]|].
  destruct (Z.eqb (f mod 10) 0); [apply dec_digits|].
  pose proof (Z.mod_pos_bound d 100 ltac:(lia)). subst f.
  split; [|discriminate]. cbn [all_chars].
  rewrite !digit_char_is_digit; [reflexivity| |].
  - apply Z.mod_pos_bound. lia.
  - split; [apply Z.div_pos; lia | apply Z.div_lt_upper_bound; lia].
Qed.

Lemma app_nonempty_l a b : a <> "" -> a ++ b <> "".
Proof. destruct a; [contradiction|discriminate]. Qed.

Lemma repr_hundredths_cell neg d :
  all_chars stat_char (repr_hundredths neg d) = true /\
  (exists c1, first_char (repr_hundredths neg d) = Some c1 /\ Ascii.eqb c1 " " = false) /\
  (exists c2, last_char (repr_hundredths neg d) = Some c2 /\ is_ascii_digit c2 = true).
Proof.
  destruct (repr_tail_digits d) as [Ht Htne].
  destruct (dec_digits (d / 100)) as [Hk Hkne].
  unfold repr_hundredths. cbv zeta.
  set (t := if Z.eqb (d mod 100) 0 then "0" else _) in *.
  split; [|split].
  - rewrite !all_chars_app.
    rewrite (all_chars_mono _ _ _ digit_stat_char Hk), (all_chars_mono _ _ _ digit_stat_char Ht).
    destruct neg; reflexivity.
  - destruct neg.
    + exists "-"%char. split; reflexivity.
    + destruct (first_char_some _ Hkne) as (c1 & Hc1).
      exists c1. split.
      * change (sign_str false ++ dec (d / 100) ++ "." ++ t) with (dec (d / 100) ++ "." ++ t).
        rewrite first_char_app by exact Hkne. exact Hc1.
      * apply digit_not_space. exact (all_chars_first _ _ _ Hk Hc1).
  - destruct (last_char_some _ Htne) as (c2 & Hc2).
    exists c2. split; [|exact (all_chars_last _ _ _ Ht Hc2)].
    rewrite last_char_app by (apply app_nonempty_l; exact Hkne).
    rewrite last_char_app by discriminate.
    rewrite (last_char_app "." t Htne). exact Hc2.
Qed.

Lemma calc_stats_cons v r :
  exists mneg md sneg sd,
    calc_stats (v :: r) = repr_hundredths mneg md ++ pm_sep ++ repr_hundredths sneg sd.
Proof.
  destruct (py_round2 (mean_of (v :: r))) as [mneg md] eqn:Em.
  destruct (if (1 <? length (v :: r))%nat then stdev_round2 (v :: r) else py_round2 0)
    as [sneg sd] eqn:Es.
  exists mneg, md, sneg, sd. unfold calc_stats. rewrite Es, Em. reflexivity.
Qed.

(** Every summary printed by [calc_stats] is a CSV and table cell. *)
Lemma calc_stats_cell vs : cell_ok (calc_stats vs).
Proof.
  destruct vs as [|v r].
  - split; [vm_compute; reflexivity|]. exists "0"%char, "0"%char. repeat split.
  - destruct (calc_stats_cons v r) as (mneg & md & sneg & sd & ->).
    destruct (repr_hundredths_cell mneg md) as (H1 & (c1 & Hf & Hc1) & (x & Hx & _)).
    destruct (repr_hundredths_cell sneg sd) as (H2 & _ & (c2 & Hl & Hd2)).
    assert (Hne1 : repr_hundredths mneg md <> "") by (intros E; rewrite E in Hf; discriminate).
    assert (Hne2 : repr_hundredths sneg sd <> "") by (intros E; rewrite E in Hl; discriminate).
    split.
    + rewrite !all_chars_app, H1, H2. reflexivity.
    + exists c1, c2. split; [rewrite first_char_app by exact Hne1; exact Hf|].
      split; [exact Hc1|]. split; [|apply digit_not_space; exact Hd2].
      rewrite last_char_app by discriminate. rewrite last_char_app by exact Hne2. exact Hl.
Qed.

Lemma cell_no_char w c : cell_ok w -> stat_char c = false -> has_char c w = false.
Proof. intros [H _] Hc. exact (has_char_all_chars _ _ _ H Hc). Qed.

Lemma has_char_spaces c k : Ascii.eqb " " c = false -> has_char c (spaces k) = false.
Proof. intro H. induction k as [|k IH]; cbn [has_char spaces]; [reflexivity|]. rewrite H, IH. reflexivity. Qed.

Lemma has_char_center c n w :
  Ascii.eqb " " c = false -> has_char c w = false -> has_char c (center n w) = false.
Proof.
  intros Hs Hw. unfold center. rewrite !has_char_app, Hw, !has_char_spaces by exact Hs.
  reflexivity.
Qed.

Lemma split_comma_step a b :
  has_char "," a = false -> split_on "," (a ++ "," ++ b) = a :: split_on "," b.
Proof. apply split_on_app_nochar. Qed.

Lemma split_bar_step a b :
  has_char "|" a = false -> split_on "|" (a ++ " | " ++ b) = (a ++ " ") :: split_on "|" (" " ++ b).
Proof.
  intro H.
  replace (a ++ " | " ++ b) with ((a ++ " ") ++ String "|" (" " ++ b))
    by (rewrite str_app_assoc; reflexivity).
  apply split_on_app_nochar. rewrite has_char_app, H. reflexivity.
Qed.

Lemma strip_centered n w :
  cell_ok w -> strip (String " " (center n w ++ " ")) = w /\ strip (String " " (center n w)) = w.
Proof.
  intros [_ (c1 & c2 & Hf & H1 & Hl & H2)]. unfold center.
  set (a := ((n - cp_length w) / 2)%nat). set (b := ((n - cp_length w) - a)%nat).
  split.
  - rewrite !str_app_assoc, spaces_snoc.
    exact (strip_padded (S a) w (S b) c1 c2 Hf H1 Hl H2).
  - exact (strip_padded (S a) w b c1 c2 Hf H1 Hl H2).
Qed.

(** One CSV line read back: the label and the four summaries. *)
Lemma read_csv_row qd id sec :
  has_char "," sec = false ->
  split_on "," (csv_row qd id sec) =
  [sec; calc_stats (qd "wlan0" sec); calc_stats (qd "wlan1" sec);
   calc_stats (id "wlan0" sec); calc_stats (id "wlan1" sec)].
Proof.
  intro Hs. unfold csv_row.
  assert (Hc : forall vs, has_char "," (calc_stats vs) = false)
    by (intro vs; apply cell_no_char; [apply calc_stats_cell | reflexivity]).
  rewrite split_comma_step by exact Hs.
  rewrite split_comma_step by apply Hc.
  rewrite split_comma_step by apply Hc.
  rewrite split_comma_step by apply Hc.
  rewrite split_on_no_char by apply Hc.
  reflexivity.
Qed.

(** One printed table row read back. *)
Lemma table_cells_row qd id sec :
  has_char "|" (pad_left_align 14 sec) = false ->
  strip (pad_left_align 14 sec ++ " ") = sec ->
  table_cells (table_row qd id sec) =
  [sec; calc_stats (qd "wlan0" sec); calc_stats (qd "wlan1" sec);
   calc_stats (id "wlan0" sec); calc_stats (id "wlan1" sec)].
Proof.
  intros Hp Hs. unfold table_cells, table_row.
  assert (Hc : forall vs, has_char "|" (center 16 (calc_stats vs)) = false).
  { intro vs. apply has_char_center; [reflexivity|].
    apply cell_no_char; [apply calc_stats_cell | reflexivity]. }
  assert (Hc' : forall vs, has_char "|" (" " ++ center 16 (calc_stats vs)) = false)
    by (intro vs; exact (Hc vs)).
  rewrite split_bar_step by exact Hp.
  rewrite <- (str_app_assoc " " (center 16 _)), split_bar_step by apply Hc'.
  rewrite <- (str_app_assoc " " (center 16 _)), split_bar_step by apply Hc'.
  rewrite <- (str_app_assoc " " (center 16 _)), split_bar_step by apply Hc'.
  rewrite split_on_no_char by apply Hc'.
  simpl map. rewrite Hs.
  rewrite !(proj1 (strip_centered 16 _ (calc_stats_cell _))).
  rewrite (proj2 (strip_centered 16 _ (calc_stats_cell _))).
  reflexivity.
Qed.

Lemma concat_cons x xs : String.concat "" (x :: xs) = x ++ String.concat "" xs.
Proof. destruct xs; [symmetry; apply str_app_nil | reflexivity]. Qed.

(** A text made of newline-terminated lines splits back into them, with
    an empty piece after the last newline. *)
Lemma split_lines rows :
  Forall (fun r => has_char char_nl r = false) rows ->
  split_on char_nl (String.concat "" (map (fun r => r ++ String char_nl "") rows))
  = (rows ++ [""])%list.
Proof.
  induction 1 as [|r rs Hr Hrs IH]; [reflexivity|].
  simpl map. rewrite concat_cons, str_app_assoc. simpl append.
  rewrite split_on_app_nochar by exact Hr. rewrite IH. reflexivity.
Qed.

Lemma has_char_csv_row qd id sec :
  has_char char_nl sec = false -> has_char char_nl (csv_row qd id sec) = false.
Proof.
  intro Hs.
  assert (Hc : forall vs, has_char char_nl (calc_stats vs) = false)
    by (intro vs; apply cell_no_char; [apply calc_stats_cell | reflexivity]).
  unfold csv_row. rewrite !has_char_app, Hs, !Hc. reflexivity.
Qed.

Lemma save_to_csv_lines HOME u qd id :
  exists content printed,
    save_to_csv HOME (inl u) qd id = (Some content, printed) /\
    read_csv content = map (split_on ",") (csv_header :: map (csv_row qd id) section_labels).
Proof.
  eexists. eexists. split; [reflexivity|].
  unfold read_csv.
  replace ((csv_header ++ String char_nl "") ::
           map (fun section => csv_row qd id section ++ String char_nl "") section_labels)
    with (map (fun r => r ++ String char_nl "") (csv_header :: map (csv_row qd id) section_labels))
    by (cbn [map]; rewrite map_map; reflexivity).
  rewrite split_lines, removelast_last; [reflexivity|].
  constructor; [reflexivity|].
  apply Forall_map. apply Forall_forall. intros sec Hin.
  apply has_char_csv_row.
  simpl in Hin. repeat destruct Hin as [<-|Hin]; try reflexivity. destruct Hin.
Qed.

(** C9: for any aggregated qperf and iperf3 data, once the CSV file is
    opened, reading the written text back gives, after the header, one
    row per time section in [TIME_SECTIONS] order, and each row is the
    list of cells of the table row [print_table] printed for that section
    (split at ['|'], spaces stripped): the section label and the same
    four [calc_stats] summaries. *)
Theorem C9_csv_round_trip HOME u qd id :
  exists content printed,
    save_to_csv HOME (inl u) qd id = (Some content, printed) /\
    tl (read_csv content) = map table_cells (skipn 3 (print_table qd id)) /\
    map table_cells (skipn 3 (print_table qd id)) =
    map (fun sec => [sec; calc_stats (qd "wlan0" sec); calc_stats (qd "wlan1" sec);
                      calc_stats (id "wlan0" sec); calc_stats (id "wlan1" sec)])
        section_labels.
Proof.
  destruct (save_to_csv_lines HOME u qd id) as (content & printed & Hsave & Hread).
  exists content, printed. split; [exact Hsave|].
  change (skipn 3 (print_table qd id)) with (map (table_row qd id) section_labels).
  rewrite Hread. cbn [tl map]. rewrite !map_map.
  split; apply map_ext_in; intros sec Hin; simpl in Hin;
    repeat destruct Hin as [<-|Hin]; try destruct Hin.
  all: first [ rewrite read_csv_row by reflexivity
             | idtac ];
       rewrite table_cells_row by (vm_compute; reflexivity); reflexivity.
Qed.

(* ================================================================== *)
(** * Further properties of the script *)

(* ------------------------------------------------------------------ *)
(** ** [get_time_section] *)

Lemma Qle_bool_false a b : Qle_bool a b = false -> b < a.
Proof.
  intro H. apply Qnot_le_lt. intro H'. apply Qle_bool_iff in H'. congruence.
Qed.

Ltac qle_cases :=
  repeat match goal with
  | |- context [Qle_bool ?a ?b] =>
      let E := fresh "E" in
      destruct (Qle_bool a b) eqn:E;
      [apply Qle_bool_iff in E | apply Qle_bool_false in E]
  end.

(** The four intervals are disjoint, so the first match of the scan is
    the only one: [get_time_section x] is [l] exactly when [x] lies in
    the interval of [l]. *)
Theorem get_time_section_iff x l :
  get_time_section x = Some l <->
  exists s e, In (l, s, e) TIME_SECTIONS /\ inject_Z s <= x <= inject_Z e.
Proof.
  split.
  - intro H. destruct (find_section_some _ _ _ H) as (s & e & Hin & Hs & He).
    exists s, e. auto.
  - intros (s & e & Hin & Hs & He). simpl in Hin.
    unfold get_time_section, TIME_SECTIONS, find_section.
    repeat destruct Hin as [Hin|Hin]; try contradiction; injection Hin as <- <- <-;
      cbn in Hs, He |- *; qle_cases; simpl; try reflexivity;
      unfold inject_Z in *; lra.
Qed.

(* ------------------------------------------------------------------ *)
(** ** [process_files] *)

(** Entries whose name does not contain [file_pattern] are skipped: the
    loop behaves as if the listing held only the matching names. *)
Theorem process_loop_filter directory parse_func pat files data :
  process_loop directory parse_func pat files data =
  process_loop directory parse_func pat (filter (contains pat) files) data.
Proof.
  revert data. induction files as [|f rest IH]; intro data; [reflexivity|].
  simpl. destruct (contains pat f) eqn:Ec; [|apply IH].
  simpl. rewrite Ec.
  destruct (parse_func (path_join directory f)) as [[[t|] tps] pr].
  - destruct (interface_of f) as [i|].
    + destruct (add_samples data i t tps) as [d'|e]; [|reflexivity].
      rewrite IH. reflexivity.
    + rewrite IH. reflexivity.
  - rewrite IH. reflexivity.
Qed.

(** The listing is processed in order: the files of [l1 ++ l2] give the
    lines printed for [l1] and then, starting from the dict [l1] left,
    those of [l2]; an exception escaping while [l1] is processed ends
    the loop, and no file of [l2] is parsed. *)
Theorem process_loop_app directory parse_func pat l1 l2 data :
  process_loop directory parse_func pat (l1 ++ l2) data =
  let '(p1, r1) := process_loop directory parse_func pat l1 data in
  match r1 with
  | inl d1 =>
      let '(p2, r2) := process_loop directory parse_func pat l2 d1 in
      ((p1 ++ p2)%list, r2)
  | inr e => (p1, inr e)
  end.
Proof.
  revert data. induction l1 as [|f rest IH]; intro data.
  - simpl. destruct (process_loop directory parse_func pat l2 data). reflexivity.
  - simpl. destruct (contains pat f) eqn:Ec; [|apply IH].
    destruct (parse_func (path_join directory f)) as [[[t|] tps] pr].
    + destruct (interface_of f) as [i|].
      * destruct (add_samples data i t tps) as [d'|e]; [|reflexivity].
        rewrite IH. destruct (process_loop directory parse_func pat rest d') as [p1 [d1|e]].
        -- destruct (process_loop directory parse_func pat l2 d1). rewrite app_assoc. reflexivity.
        -- reflexivity.
      * rewrite IH. destruct (process_loop directory parse_func pat rest data) as [p1 [d1|e]].
        -- destruct (process_loop directory parse_func pat l2 d1). rewrite app_assoc. reflexivity.
        -- reflexivity.
    + rewrite IH. destruct (process_loop directory parse_func pat rest data) as [p1 [d1|e]].
      * destruct (process_loop directory parse_func pat l2 d1). rewrite app_assoc. reflexivity.
      * reflexivity.
Qed.

Lemma add_samples_grows data interface t samples data' :
  add_samples data interface t samples = inl data' ->
  forall i s, exists suf, data' i s = (data i s ++ suf)%list.
Proof.
  revert data. induction samples as [|[sec tp] r IH]; simpl; intros data H i s.
  - injection H as <-. exists []. symmetry. apply app_nil_r.
  - destruct (seconds_since_midnight t sec) as [x|e]; simpl in H; [|discriminate].
    destruct (IH _ H i s) as (suf & ->).
    destruct (get_time_section (num_Q x)) as [section|]; [|eauto].
    unfold append_at.
    destruct (String.eqb i interface && String.eqb s section).
    + exists (tp :: suf). rewrite <- app_assoc. reflexivity.
    + eauto.
Qed.

(** Buckets only grow: whatever a bucket holds before the loop is a
    prefix of what it holds after it; values are only appended. *)
Theorem process_loop_grows directory parse_func pat files data printed data' :
  process_loop directory parse_func pat files data = (printed, inl data') ->
  forall i s, exists suf, data' i s = (data i s ++ suf)%list.
Proof.
  revert data printed. induction files as [|f rest IH]; simpl; intros data printed H i s.
  - injection H as _ <-. exists []. symmetry. apply app_nil_r.
  - destruct (contains pat f); [|exact (IH _ _ H i s)].
    destruct (parse_func (path_join directory f)) as [[[t|] tps] pr].
    + destruct (interface_of f) as [itf|].
      * destruct (add_samples data itf t tps) as [d1|e] eqn:Ea; [|discriminate].
        destruct (process_loop directory parse_func pat rest d1) as [p2 r2] eqn:Er.
        injection H as _ ->.
        destruct (IH _ _ Er i s) as (suf2 & ->).
        destruct (add_samples_grows _ _ _ _ _ Ea i s) as (suf1 & ->).
        exists (suf1 ++ suf2)%list. symmetry. apply app_assoc.
      * destruct (process_loop directory parse_func pat rest data) as [p2 r2] eqn:Er.
        injection H as _ ->. exact (IH _ _ Er i s).
    + destruct (process_loop directory parse_func pat rest data) as [p2 r2] eqn:Er.
      injection H as _ ->. exact (IH _ _ Er i s).
Qed.

(** Only the eight buckets of the dict literal are ever filled: a
    non-empty bucket of the result has interface ["wlan0"] or
    ["wlan1"] and one of the four labels of [TIME_SECTIONS]. *)
Theorem process_files_keys fs directory parse_func pat printed data :
  process_files fs directory parse_func pat = (printed, inl data) ->
  forall i s, data i s <> [] ->
  (i = "wlan0" \/ i = "wlan1") /\ In s section_labels.
Proof.
  unfold process_files. destruct (fs_listdir fs directory) as [files|]; [|discriminate].
  intros H i s Hne. destruct (data i s) as [|v vs] eqn:Ed; [contradiction|].
  assert (Hin : In v (data i s)) by (rewrite Ed; left; reflexivity).
  destruct (process_loop_origin _ _ _ _ _ _ _ H i s v Hin)
    as [[]|(fn & t & smp & sec & x & _ & _ & _ & Hi & _ & _ & Hs)].
  split.
  - unfold interface_of in Hi.
    destruct (contains "wlan0" fn); [injection Hi as <-; auto|].
    destruct (contains "wlan1" fn); [injection Hi as <-; auto | discriminate].
  - destruct (get_time_section_some _ _ Hs) as (st & e & HinS & _).
    simpl in HinS. simpl.
    repeat destruct HinS as [HinS|HinS]; try contradiction; injection HinS as <- _ _; auto.
Qed.

(* ------------------------------------------------------------------ *)
(** ** [parse_qperf_file] *)

(** The filename is checked before the file is opened: a name without a
    valid timestamp gives the sentinel and a diagnostic naming the
    timestamp error, whatever the file system holds; a returned start
    time is always the filename's, and then nothing is printed. *)
Theorem parse_qperf_file_filename fs filepath :
  (forall e, filename_timestamp (basename filepath) ".txt" = inr e ->
     parse_qperf_file fs filepath = (sentinel, [mkdiag "qperf" filepath e])) /\
  (forall t samples printed,
     parse_qperf_file fs filepath = ((Some t, samples), printed) ->
     filename_timestamp (basename filepath) ".txt" = inl t /\ printed = []).
Proof.
  unfold parse_qperf_file, parse_qperf_body. split.
  - intros e He. rewrite He. reflexivity.
  - intros t samples printed.
    destruct (filename_timestamp (basename filepath) ".txt") as [t'|e]; simpl; [|discriminate].
    destruct (open_read fs filepath) as [f|e]; simpl; [|discriminate].
    destruct (decode_text f) as [text|e]; simpl; [|discriminate].
    destruct (qperf_lines (lines text)) as [l|e]; simpl; [|discriminate].
    intro H. injection H as <- _ <-. auto.
Qed.

Lemma list_ascii_app a b :
  list_ascii_of_string (a ++ b) = (list_ascii_of_string a ++ list_ascii_of_string b)%list.
Proof. induction a as [|c r IH]; simpl; [reflexivity|]. rewrite IH. reflexivity. Qed.

Lemma all_chars_forallb p s : all_chars p s = forallb p (list_ascii_of_string s).
Proof. induction s as [|c r IH]; simpl; [reflexivity|]. rewrite IH. reflexivity. Qed.

Lemma strip_prefix_app pre r : strip_prefix pre (pre ++ r) = Some r.
Proof. induction pre as [|x p IH]; simpl; [reflexivity|]. rewrite Z.eqb_refl. exact IH. Qed.

Lemma span_app p l c r :
  forallb p l = true -> p c = false -> span p (l ++ c :: r) = (l, c :: r).
Proof.
  induction l as [|x l IH]; simpl; intros Hl Hc.
  - rewrite Hc. reflexivity.
  - apply andb_true_iff in Hl as [Hx Hl]. rewrite Hx, (IH Hl Hc). reflexivity.
Qed.

Lemma search_skip pre r : ~ In 115%Z pre -> search (pre ++ r) = search r.
Proof.
  induction pre as [|x p IH]; simpl; [reflexivity|].
  intro H. assert (Hx : x <> 115%Z) by tauto. assert (Hp : ~ In 115%Z p) by tauto.
  assert (Hm : match_at (x :: p ++ r) = None).
  { unfold match_at. change (cps "second ") with (115 :: cps "econd ")%Z.
    cbn [strip_prefix]. destruct (Z.eqb_spec 115 x); [congruence | reflexivity]. }
  rewrite Hm. exact (IH Hp).
Qed.

Lemma match_at_line ld lt ls :
  ld <> [] -> forallb is_digit ld = true ->
  lt <> [] -> forallb is_digit_or_dot lt = true ->
  match_at (cps "second " ++ ld ++ cps ": " ++ lt ++ cps " mbit/s" ++ ls) = Some (ld, lt).
Proof.
  intros Hd1 Hd2 Ht1 Ht2. unfold match_at. rewrite strip_prefix_app.
  replace (ld ++ cps ": " ++ lt ++ cps " mbit/s" ++ ls)%list
    with (ld ++ 58%Z :: (cps " " ++ lt ++ cps " mbit/s" ++ ls))%list by reflexivity.
  rewrite (span_app _ ld 58%Z _ Hd2 eq_refl).
  destruct ld as [|d ds]; [contradiction|].
  replace (58%Z :: (cps " " ++ lt ++ cps " mbit/s" ++ ls))%list
    with (cps ": " ++ (lt ++ cps " mbit/s" ++ ls))%list by reflexivity.
  rewrite strip_prefix_app.
  replace (lt ++ cps " mbit/s" ++ ls)%list
    with (lt ++ 32%Z :: (cps "mbit/s" ++ ls))%list by reflexivity.
  rewrite (span_app _ lt 32%Z _ Ht2 eq_refl).
  destruct lt as [|u us]; [contradiction|].
  replace (32%Z :: (cps "mbit/s" ++ ls))%list
    with (cps " mbit/s" ++ ls)%list by reflexivity.
  rewrite strip_prefix_app. reflexivity.
Qed.

Lemma search_match_at l m : match_at l = Some m -> search l = Some m.
Proof. intro H. destruct l; cbn [search]; rewrite H; reflexivity. Qed.

(** [re.search] finds the groups of a well-formed line: when the code
    points of the line are any text without an ['s'], ["second "], a
    run of Unicode decimal digits, [": "], a run of such digits and
    dots, and [" mbit/s"], followed by anything, the two groups are the
    two runs. *)
Theorem qperf_search_line line P D T S :
  decode line = (P ++ cps "second " ++ D ++ cps ": " ++ T ++ cps " mbit/s" ++ S)%list ->
  ~ In 115%Z P ->
  D <> [] -> forallb is_digit D = true ->
  T <> [] -> forallb is_digit_or_dot T = true ->
  qperf_search line = Some (D, T).
Proof.
  intros Hl HP HD1 HD2 HT1 HT2. unfold qperf_search.
  rewrite Hl, (search_skip _ _ HP).
  apply search_match_at, match_at_line; assumption.
Qed.

Lemma span_spec p l :
  l = (fst (span p l) ++ snd (span p l))%list /\ forallb p (fst (span p l)) = true /\
  match snd (span p l) with [] => True | c :: _ => p c = false end.
Proof.
  induction l as [|x r IH]; simpl; [auto|].
  destruct (p x) eqn:Hx; simpl; [|auto].
  destruct (span p r) as [a b]. simpl in *. destruct IH as (-> & H1 & H2).
  rewrite Hx, H1. auto.
Qed.

Lemma digits_no_dot l : forallb is_digit l = true -> count_occ Z.eq_dec l 46%Z = 0%nat.
Proof.
  induction l as [|x r IH]; simpl; [reflexivity|].
  intro H. apply andb_true_iff in H as [Hx Hr].
  destruct (Z.eq_dec x 46%Z); [subst; discriminate | exact (IH Hr)].
Qed.

Lemma non_digit_dot l :
  forallb is_digit_or_dot l = true -> forallb is_digit l = false ->
  (1 <= count_occ Z.eq_dec l 46%Z)%nat.
Proof.
  induction l as [|x r IH]; simpl; [discriminate|].
  intros H1 H2. apply andb_true_iff in H1 as [Hx Hr].
  destruct (Z.eq_dec x 46%Z); [lia|].
  unfold is_digit_or_dot in Hx.
  destruct (is_digit x); simpl in H2.
  - exact (IH Hr H2).
  - apply Z.eqb_eq in Hx. contradiction.
Qed.

Lemma digits_exist l : forallb is_digit l = true -> existsb is_digit l = negb (Nat.eqb (length l) 0).
Proof.
  destruct l as [|x r]; simpl; [reflexivity|].
  intro H. apply andb_true_iff in H as [Hx _]. rewrite Hx. reflexivity.
Qed.

(** [float()] of a captured throughput token (Unicode decimal digits
    and dots) fails exactly when the token has two dots or more, or no
    digit at all. *)
Theorem py_float_digits_dots_error g :
  forallb is_digit_or_dot g = true ->
  (py_float_digits_dots g = inr ValueError <->
   (2 <= count_occ Z.eq_dec g 46%Z)%nat \/ existsb is_digit g = false).
Proof.
  intro Hg. unfold py_float_digits_dots.
  destruct (span_spec is_digit g) as (Hl & Hip & Hr).
  destruct (span is_digit g) as [ip r]. simpl in Hl, Hip, Hr.
  rewrite Hl in Hg |- *. rewrite count_occ_app, existsb_app, (digits_no_dot _ Hip),
    (digits_exist _ Hip).
  destruct r as [|c fp].
  - destruct ip as [|d ds]; simpl.
    + split; [intros _; right; reflexivity | reflexivity].
    + split; [discriminate|]. intros [H|H]; [lia | discriminate].
  - rewrite forallb_app in Hg. apply andb_true_iff in Hg as [_ Hg].
    simpl in Hg. apply andb_true_iff in Hg as [Hc Hfp].
    unfold is_digit_or_dot in Hc. rewrite Hr in Hc. simpl in Hc.
    apply Z.eqb_eq in Hc. subst c. simpl.
    destruct (forallb is_digit fp) eqn:Efp.
    + rewrite (digits_no_dot _ Efp), (digits_exist _ Efp). simpl.
      destruct ip as [|d ds], fp as [|e es]; simpl;
        (split; [intro H; try discriminate; right; reflexivity|
                 intros [H|H]; [lia|try discriminate; reflexivity]]).
    + pose proof (non_digit_dot _ Hfp Efp). simpl.
      split; [intros _; left; lia | reflexivity].
Qed.

(* ------------------------------------------------------------------ *)
(** ** The filename timestamp *)

(** [\d] takes any decimal digit, a bracketed class only ASCII ones;
    the first match of the regular expression need not use two digits
    per field. *)
Example strptime_ymd_hms_cases :
  strptime_ymd_hms "٢٠٢٥0605_120000" = inl (mkdatetime 2025 6 5 12 0 0) /\
  strptime_ymd_hms "20250605_1٦0000" = inl (mkdatetime 2025 6 5 16 0 0) /\
  strptime_ymd_hms "2025٠0605_120000" = inr ValueError /\
  strptime_ymd_hms "20250605_ 12000" = inr ValueError /\
  strptime_ymd_hms "2025065_12000" = inl (mkdatetime 2025 6 5 12 0 0) /\
  strptime_ymd_hms "20250230_120000" = inr ValueError /\
  strptime_ymd_hms "00000101_000000" = inr ValueError.
Proof. repeat split; vm_compute; reflexivity. Qed.

Lemma digit_cases d : (0 <= d < 10)%Z ->
  (d = 0 \/ d = 1 \/ d = 2 \/ d = 3 \/ d = 4 \/ d = 5 \/ d = 6 \/ d = 7 \/ d = 8 \/ d = 9)%Z.
Proof. lia. Qed.

Lemma byte_digit_char d : (0 <= d < 10)%Z -> byte (digit_char d) = (48 + d)%Z.
Proof. intro H. apply digit_cases in H. repeat destruct H as [-> | H]; [reflexivity ..|]. subst. reflexivity. Qed.

Lemma is_digit_ascii d : (0 <= d < 10)%Z -> is_digit (48 + d) = true.
Proof. intro H. apply digit_cases in H. repeat destruct H as [-> | H]; [reflexivity ..|]. subst. reflexivity. Qed.

Lemma dval_ascii d : (0 <= d < 10)%Z -> dval (48 + d) = d.
Proof. intro H. apply digit_cases in H. repeat destruct H as [-> | H]; [reflexivity ..|]. subst. reflexivity. Qed.

Lemma utf8_decode_ascii l : Forall (fun c => (byte c < 128)%Z) l -> utf8_decode l = map byte l.
Proof.
  induction 1 as [|x l Hx _ IH]; [reflexivity|]. cbn [utf8_decode map].
  destruct (Z.ltb_spec (byte x) 128); [rewrite IH; reflexivity | lia].
Qed.

(** The code points of [t.strftime('%Y%m%d_%H%M%S')]. *)
Lemma decode_strftime y mo d h mi se :
  (0 <= y <= 9999)%Z -> (0 <= mo < 100)%Z -> (0 <= d < 100)%Z ->
  (0 <= h < 100)%Z -> (0 <= mi < 100)%Z -> (0 <= se < 100)%Z ->
  decode (strftime_ymd_hms (mkdatetime y mo d h mi se)) =
  (map (Z.add 48) [y / 1000; y / 100 mod 10; y / 10 mod 10; y mod 10;
                   mo / 10; mo mod 10; d / 10; d mod 10] ++
   95 :: map (Z.add 48) [h / 10; h mod 10; mi / 10; mi mod 10; se / 10; se mod 10])%Z%list.
Proof.
  intros Hy Hmo Hd Hh Hmi Hse.
  unfold decode, strftime_ymd_hms, digit2.
  cbn [list_ascii_of_string append year month day hour minute second].
  rewrite utf8_decode_ascii.
  - cbn [map app]. rewrite !byte_digit_char by (Z.div_mod_to_equations; lia). reflexivity.
  - repeat (apply Forall_cons;
      [cbv beta; first [rewrite byte_digit_char by (Z.div_mod_to_equations; lia);
                         Z.div_mod_to_equations; lia
             | vm_compute; reflexivity] |]).
    apply Forall_nil.
Qed.

Lemma f_Y_digits y r :
  (1000 <= y <= 9999)%Z ->
  f_Y (48 + y / 1000 :: 48 + y / 100 mod 10 :: 48 + y / 10 mod 10 :: 48 + y mod 10 :: r)%Z
  = [(y, r)].
Proof.
  intro Hy. unfold f_Y.
  assert (H1 : (0 <= y / 1000 < 10)%Z) by (Z.div_mod_to_equations; lia).
  assert (H2 : (0 <= y / 100 mod 10 < 10)%Z) by (Z.div_mod_to_equations; lia).
  assert (H3 : (0 <= y / 10 mod 10 < 10)%Z) by (Z.div_mod_to_equations; lia).
  assert (H4 : (0 <= y mod 10 < 10)%Z) by (Z.div_mod_to_equations; lia).
  rewrite !is_digit_ascii by assumption. cbn [andb].
  rewrite !dval_ascii by assumption. f_equal. f_equal. Z.div_mod_to_equations. lia.
Qed.

Ltac enum_field :=
  let v := fresh "v" in let r := fresh "r" in let Hv := fresh "Hv" in
  let n := fresh "n" in
  intros v r Hv;
  destruct (Z_of_nat_complete v ltac:(lia)) as [n ->];
  do 62 (destruct n as [|n]; [first [exfalso; lia | eexists; reflexivity] |]);
  exfalso; lia.

Lemma f_m_digits : forall v r, (1 <= v <= 12)%Z ->
  exists l, f_m (48 + v / 10 :: 48 + v mod 10 :: r)%Z = (v, r) :: l.
Proof. enum_field. Qed.

Lemma f_d_digits : forall v r, (1 <= v <= 31)%Z ->
  exists l, f_d (48 + v / 10 :: 48 + v mod 10 :: r)%Z = (v, r) :: l.
Proof. enum_field. Qed.

Lemma f_H_digits : forall v r, (0 <= v <= 23)%Z ->
  exists l, f_H (48 + v / 10 :: 48 + v mod 10 :: r)%Z = (v, r) :: l.
Proof. enum_field. Qed.

Lemma f_M_digits : forall v r, (0 <= v <= 59)%Z ->
  exists l, f_M (48 + v / 10 :: 48 + v mod 10 :: r)%Z = (v, r) :: l.
Proof. enum_field. Qed.

Lemma f_S_digits : forall v r, (0 <= v <= 59)%Z ->
  exists l, f_S (48 + v / 10 :: 48 + v mod 10 :: r)%Z = (v, r) :: l.
Proof. enum_field. Qed.

Ltac field_head f lem H :=
  match goal with
  | |- context [f (?a :: ?b :: ?r)] =>
      let l := fresh "l" in let Hl := fresh "Hl" in
      destruct (lem _ r H) as [l Hl]; rewrite Hl; cbn [flat_map map app]
  end.

Lemma strptime_strftime t :
  (1000 <= year t <= 9999)%Z -> (1 <= month t <= 12)%Z ->
  (1 <= day t <= days_in_month (year t) (month t))%Z ->
  (0 <= hour t <= 23)%Z -> (0 <= minute t <= 59)%Z -> (0 <= second t <= 59)%Z ->
  strptime_ymd_hms (strftime_ymd_hms t) = inl t.
Proof.
  destruct t as [y mo d h mi se]; cbn [year month day hour minute second].
  intros Hy Hmo Hd Hh Hmi Hse.
  assert (Hd31 : (1 <= d <= 31)%Z).
  { split; [lia|]. apply Z.le_trans with (days_in_month y mo); [lia|].
    unfold days_in_month. destruct (Z.eqb mo 2); [destruct (is_leap y)|];
      [lia|lia|destruct (existsb _ _); lia]. }
  unfold strptime_ymd_hms. rewrite decode_strftime by lia. cbn [map app].
  unfold ymd_hms_matches. rewrite f_Y_digits by exact Hy. cbn [flat_map map app].
  field_head f_m f_m_digits Hmo.
  field_head f_d f_d_digits Hd31.
  cbn [lit Z.eqb Pos.eqb flat_map app].
  field_head f_H f_H_digits Hh.
  field_head f_M f_M_digits Hmi.
  field_head f_S f_S_digits Hse.
  unfold valid_datetime. cbn [year month day hour minute second].
  replace ((1 <=? y)%Z && (d <=? days_in_month y mo)%Z && (se <=? 59)%Z) with true.
  - reflexivity.
  - symmetry. apply andb_true_iff. split; [apply andb_true_iff; split|]; apply Z.leb_le; lia.
Qed.

Lemma digit2_digits v : (0 <= v < 100)%Z -> all_chars is_ascii_digit (digit2 v) = true.
Proof.
  intro H. unfold digit2. cbn [all_chars].
  rewrite !digit_char_is_digit; [reflexivity | |]; Z.div_mod_to_equations; lia.
Qed.

Lemma prefix_refl s : String.prefix s s = true.
Proof.
  induction s as [|c r IH]; [reflexivity|].
  change (String.prefix (String c r) (String c r)) with
    (if ascii_dec c c then String.prefix r r else false).
  destruct (ascii_dec c c); [exact IH | contradiction].
Qed.

Lemma substring_all s : substring (String.length s) (String.length s) s = "".
Proof.
  assert (H : forall m, substring (String.length s) m s = "").
  { induction s as [|c r IH]; intro m; [destruct m; reflexivity | exact (IH m)]. }
  apply H.
Qed.

(** [s.replace(ext, '')] on digits followed by [ext], for an [ext]
    starting with a dot. *)
Lemma remove_all_digits_ext D ext :
  all_chars is_ascii_digit D = true -> first_char ext = Some "."%char ->
  remove_all ext (D ++ ext) = D.
Proof.
  intros HD He. unfold remove_all.
  assert (Hgen : forall f, (String.length D < f)%nat -> remove_all_aux f ext (D ++ ext) = D).
  { induction D as [|c r IH]; intros f Hf.
    - destruct f as [|f]; [lia|]. destruct ext as [|x e]; [discriminate|].
      cbn [append remove_all_aux]. rewrite prefix_refl, substring_all.
      destruct f; reflexivity.
    - simpl in HD. apply andb_true_iff in HD as [Hc Hr].
      destruct f as [|f]; [simpl in Hf; lia|].
      destruct ext as [|x e]; [discriminate|]. simpl in He. injection He as ->.
      cbn [append remove_all_aux].
      change (String.prefix (String "." e) (String c (r ++ String "." e))) with
        (if ascii_dec "." c then String.prefix e (r ++ String "." e) else false).
      destruct (ascii_dec "." c) as [<-|]; [discriminate|].
      f_equal. apply IH; [exact Hr | simpl in Hf; lia]. }
  apply Hgen. rewrite str_length_app. destruct ext; [discriminate|]. simpl. lia.
Qed.

(** A result file named [<anything>_<YYYYMMDD>_<HHMMSS><ext>], the name
    [strftime('%Y%m%d_%H%M%S')] gives a valid date and time with a
    four-digit year, yields back that date and time (for both [.txt] and
    [.json]). *)
Theorem filename_timestamp_strftime P t ext :
  ext = ".txt" \/ ext = ".json" ->
  (1000 <= year t <= 9999)%Z -> (1 <= month t <= 12)%Z ->
  (1 <= day t <= days_in_month (year t) (month t))%Z ->
  (0 <= hour t <= 23)%Z -> (0 <= minute t <= 59)%Z -> (0 <= second t <= 59)%Z ->
  filename_timestamp (P ++ "_" ++ strftime_ymd_hms t ++ ext) ext = inl t.
Proof.
  intros Hext Hy Hmo Hd Hh Hmi Hse.
  set (ymd := String (digit_char (year t / 1000)) (String (digit_char (year t / 100 mod 10))
             (String (digit_char (year t / 10 mod 10)) (String (digit_char (year t mod 10))
             (digit2 (month t) ++ digit2 (day t)))))).
  set (hms := digit2 (hour t) ++ digit2 (minute t) ++ digit2 (second t)).
  assert (Hs : strftime_ymd_hms t = ymd ++ "_" ++ hms).
  { unfold strftime_ymd_hms, ymd, hms, digit2. reflexivity. }
  assert (Hdm : (days_in_month (year t) (month t) <= 31)%Z).
  { unfold days_in_month. destruct (Z.eqb _ 2); [destruct (is_leap _)|];
      [lia|lia|destruct (existsb _ _); lia]. }
  assert (Hymd : all_chars is_ascii_digit ymd = true).
  { unfold ymd. cbn [all_chars]. rewrite !all_chars_app, !digit2_digits by lia.
    rewrite !digit_char_is_digit; [reflexivity | ..]; Z.div_mod_to_equations; lia. }
  assert (Hhms : all_chars is_ascii_digit hms = true).
  { unfold hms. rewrite !all_chars_app, !digit2_digits by lia. reflexivity. }
  assert (Hext_us : has_char "_" ext = false) by (destruct Hext as [->| ->]; reflexivity).
  unfold filename_timestamp.
  assert (Hn : P ++ "_" ++ strftime_ymd_hms t ++ ext
               = P ++ String "_" (ymd ++ String "_" (hms ++ ext))).
  { rewrite Hs. reflexivity. }
  rewrite Hn.
  destruct (split_on_app_sep "_" P (ymd ++ String "_" (hms ++ ext))) as (p & l & Hsplit).
  rewrite Hsplit.
  rewrite split_on_app_nochar by (apply (has_char_all_chars is_ascii_digit); [exact Hymd | reflexivity]).
  rewrite split_on_no_char.
  2: { rewrite has_char_app, Hext_us, orb_false_r.
       apply (has_char_all_chars is_ascii_digit); [exact Hhms | reflexivity]. }
  unfold last_two.
  replace (rev (p :: app l [ymd; hms ++ ext])) with ((hms ++ ext) :: ymd :: rev (p :: l))
    by (change (p :: app l [ymd; hms ++ ext]) with (app (p :: l) [ymd; hms ++ ext]);
        rewrite rev_app_distr; reflexivity).
  cbn [bind ret].
  rewrite remove_all_digits_ext by (try exact Hhms; destruct Hext as [->| ->]; reflexivity).
  rewrite <- Hs. apply strptime_strftime; assumption.
Qed.

Lemma cp_length_app a b : cp_length (a ++ b) = (cp_length a + cp_length b)%nat.
Proof.
  induction a as [|c r IH]; [reflexivity|]. cbn [append cp_length].
  destruct (_ && _); rewrite IH; reflexivity.
Qed.

Lemma cp_length_spaces k : cp_length (spaces k) = k.
Proof. induction k as [|k IH]; [reflexivity|]. simpl. rewrite IH. reflexivity. Qed.

Lemma cp_length_center n w : (cp_length w <= n)%nat -> cp_length (center n w) = n.
Proof.
  intro H. unfold center. rewrite !cp_length_app, !cp_length_spaces.
  pose proof (Nat.div_mod_eq (n - cp_length w) 2). lia.
Qed.

(** The pieces of a printed table row between the ['|'] separators. *)
Lemma split_table_row qd id sec :
  has_char "|" (pad_left_align 14 sec) = false ->
  split_on "|" (table_row qd id sec) =
  [pad_left_align 14 sec ++ " ";
   (" " ++ center 16 (calc_stats (qd "wlan0" sec))) ++ " ";
   (" " ++ center 16 (calc_stats (qd "wlan1" sec))) ++ " ";
   (" " ++ center 16 (calc_stats (id "wlan0" sec))) ++ " ";
   " " ++ center 16 (calc_stats (id "wlan1" sec))].
Proof.
  intros Hp. unfold table_row.
  assert (Hc' : forall vs, has_char "|" (" " ++ center 16 (calc_stats vs)) = false).
  { intro vs. apply (has_char_center "|" 16 (calc_stats vs)); [reflexivity|].
    apply cell_no_char; [apply calc_stats_cell | reflexivity]. }
  rewrite split_bar_step by exact Hp.
  rewrite <- (str_app_assoc " " (center 16 _)), split_bar_step by apply Hc'.
  rewrite <- (str_app_assoc " " (center 16 _)), split_bar_step by apply Hc'.
  rewrite <- (str_app_assoc " " (center 16 _)), split_bar_step by apply Hc'.
  rewrite split_on_no_char by apply Hc'.
  reflexivity.
Qed.

(** [print_table] keeps its columns aligned: as long as every summary
    fits in its 16-character column, the ['|'] of each of the four data
    rows fall at the same character positions as those of the header
    (the header's last column carries five trailing spaces where a data
    row's has four). *)
Theorem print_table_aligned qd id :
  (forall s i, In s section_labels -> i = "wlan0" \/ i = "wlan1" ->
     (cp_length (calc_stats (qd i s)) <= 16 /\ cp_length (calc_stats (id i s)) <= 16)%nat) ->
  exists title header rule rows,
    print_table qd id = title :: header :: rule :: rows /\
    map cp_length (split_on "|" header) = [15; 18; 18; 18; 18]%nat /\
    length rows = 4%nat /\
    (forall row, In row rows -> map cp_length (split_on "|" row) = [15; 18; 18; 18; 17]%nat).
Proof.
  intro Hfit. unfold print_table.
  eexists _, _, _, _. split; [reflexivity|]. split; [vm_compute; reflexivity|].
  split; [reflexivity|].
  intros row Hrow. apply in_map_iff in Hrow as (s & <- & Hs).
  assert (Hpad : has_char "|" (pad_left_align 14 s) = false /\
                 cp_length (pad_left_align 14 s ++ " ") = 15%nat)
    by (repeat (destruct Hs as [<-|Hs]; [split; vm_compute; reflexivity|]); destruct Hs).
  destruct Hpad as [Hp Hl].
  rewrite (split_table_row qd id s Hp). cbn [map]. rewrite Hl.
  rewrite !cp_length_app, !cp_length_center
    by (apply Hfit; auto).
  reflexivity.
Qed.

Lemma print_table_aligned_witness :
  exists title header rule rows,
    print_table empty_data empty_data = title :: header :: rule :: rows /\
    map cp_length (split_on "|" header) = [15; 18; 18; 18; 18]%nat /\
    length rows = 4%nat /\
    (forall row, In row rows -> map cp_length (split_on "|" row) = [15; 18; 18; 18; 17]%nat).
Proof.
  apply print_table_aligned. intros s i _ _.
  split; apply Nat.leb_le; vm_compute; reflexivity.
Defined.

Lemma qperf_lines_ok ls :
  (forall line g1 g2, In line ls -> qperf_search line = Some (g1, g2) ->
     (length g1 <= 4300)%nat /\ exists q, py_float_digits_dots g2 = inl q) ->
  exists samples, qperf_lines ls = inl samples /\
    map fst samples =
    flat_map (fun line =>
      match qperf_search line with
      | Some (g1, _) => [PInt (digits_value g1)]
      | None => []
      end) ls.
Proof.
  induction ls as [|l r IH]; intro H; [exists []; split; reflexivity|].
  destruct IH as (rest & Hr & Hm); [intros; eapply H; [right|]; eassumption|].
  cbn [qperf_lines flat_map]. unfold qperf_line.
  destruct (qperf_search l) as [[g1 g2]|] eqn:Es.
  - destruct (H l g1 g2 (or_introl eq_refl) Es) as (Hlen & q & Hq).
    unfold py_int_digits.
    replace (4300 <? length g1)%nat with false by (symmetry; apply Nat.ltb_ge; exact Hlen).
    cbn [bind ret]. rewrite Hq, Hr. cbn [bind ret].
    eexists. split; [reflexivity|]. cbn [map fst app]. rewrite Hm. reflexivity.
  - cbn [bind ret]. rewrite Hr. cbn [bind ret]. eexists. split; [reflexivity|]. exact Hm.
Qed.

(** The converse of C10: when the filename carries a timestamp and the
    file can be read and is UTF-8, and every line matching the pattern
    has a second token of at most 4300 digits and a valid float token,
    [parse_qperf_file] prints nothing and returns that timestamp with
    one sample per matching line, in file order, whose offset is
    [int(group 1)], the decimal value of the captured digits (any
    Unicode decimal digits); other lines are skipped. *)
Theorem parse_qperf_file_ok fs filepath t text :
  filename_timestamp (basename filepath) ".txt" = inl t ->
  fs_read fs filepath = Some text -> utf8_valid text = true ->
  (forall line g1 g2, In line (lines text) -> qperf_search line = Some (g1, g2) ->
     (length g1 <= 4300)%nat /\ exists q, py_float_digits_dots g2 = inl q) ->
  exists samples, parse_qperf_file fs filepath = ((Some t, samples), []) /\
    map fst samples =
    flat_map (fun line =>
      match qperf_search line with
      | Some (g1, _) => [PInt (digits_value g1)]
      | None => []
      end) (lines text).
Proof.
  intros Ht Hr Hv Hf. unfold parse_qperf_file, parse_qperf_body.
  cbv zeta. rewrite Ht. cbn [bind ret]. unfold open_read. rewrite Hr. cbn [bind ret].
  unfold decode_text. rewrite Hv. cbn [bind ret].
  destruct (qperf_lines_ok _ Hf) as (samples & -> & Hm).
  exists samples. split; [reflexivity | exact Hm].
Qed.

Lemma parse_qperf_file_ok_witness :
  exists samples,
    parse_qperf_file w0_fs (path_join (QPERF_DIR "/home/pi") w0_name)
    = ((Some (mkdatetime 2025 6 5 0 0 0), samples), []) /\
    map fst samples =
    flat_map (fun line =>
      match qperf_search line with
      | Some (g1, _) => [PInt (digits_value g1)]
      | None => []
      end) (lines "second 0: 50.0 mbit/s").
Proof.
  apply parse_qperf_file_ok.
  - vm_compute. reflexivity.
  - reflexivity.
  - reflexivity.
  - intros line g1 g2 Hin Hs. vm_compute in Hin. destruct Hin as [<-|[]].
    vm_compute in Hs. injection Hs as <- <-. split; [apply Nat.leb_le; reflexivity|].
    eexists. vm_compute. reflexivity.
Defined.

Lemma process_loop_grows_witness :
  exists suf, w0_data "wlan0" "0h-5h59" = (empty_data "wlan0" "0h-5h59" ++ suf)%list.
Proof.
  apply (process_loop_grows (QPERF_DIR "/home/pi") (parse_qperf_file w0_fs)
           "qperf_throughput_rtt" [w0_name] empty_data [] w0_data).
  vm_compute. reflexivity.
Defined.

Lemma process_files_keys_witness :
  w0_data "wlan0" "0h-5h59" <> @nil Q /\
  (("wlan0" = "wlan0" \/ "wlan0" = "wlan1") /\ In "0h-5h59" section_labels).
Proof.
  assert (Hne : w0_data "wlan0" "0h-5h59" <> @nil Q) by (vm_compute; discriminate).
  split; [exact Hne|].
  apply (process_files_keys w0_fs (QPERF_DIR "/home/pi") (parse_qperf_file w0_fs)
           "qperf_throughput_rtt" [] w0_data); [vm_compute; reflexivity | exact Hne].
Defined.

Lemma qperf_search_line_witness :
  qperf_search "t=3 second ٢٠: 50.٥ mbit/s rtt"
  = Some ([1634; 1632], [53; 48; 46; 1637])%Z.
Proof.
  apply (qperf_search_line _ (cps "t=3 ") [1634; 1632]%Z [53; 48; 46; 1637]%Z (cps " rtt")).
  - vm_compute. reflexivity.
  - vm_compute. intuition discriminate.
  - discriminate.
  - reflexivity.
  - discriminate.
  - reflexivity.
Defined.

Lemma py_float_digits_dots_error_witness :
  (py_float_digits_dots (decode "٣.٥") = inr ValueError <->
   (2 <= count_occ Z.eq_dec (decode "٣.٥") 46%Z)%nat \/
   existsb is_digit (decode "٣.٥") = false) /\
  (py_float_digits_dots (decode "1.2.3") = inr ValueError <->
   (2 <= count_occ Z.eq_dec (decode "1.2.3") 46%Z)%nat \/
   existsb is_digit (decode "1.2.3") = false).
Proof. split; apply py_float_digits_dots_error; reflexivity. Defined.

Lemma filename_timestamp_strftime_witness :
  filename_timestamp ("wlan0_qperf_throughput_rtt" ++ "_" ++
                      strftime_ymd_hms (mkdatetime 2025 6 5 19 38 15) ++ ".txt") ".txt"
  = inl (mkdatetime 2025 6 5 19 38 15).
Proof.
  apply filename_timestamp_strftime; cbn [year month day hour minute second];
    [left; reflexivity | lia | lia | vm_compute; split; discriminate | lia | lia | lia].
Defined.
